(** * BMS: battery discharge model and thermal simulation engine

    A shallow embedding of the numerical core of the repository
    ([core1/simulator.py], [core1/views.py], [core1/models.py]) together
    with the properties its specification states.

    Numbers.  Python [float] and numpy [float64] values are modelled as
    exact rationals ([Q]); comparisons are the decidable order of [Q] and
    two numbers are "the same number" when they are [==] ([Qeq]).
    Rounding, infinities and NaN are outside this model.  A Python-level
    division ([float / float]) raises [ZeroDivisionError] on a zero
    divisor and is modelled by [pydiv]; a numpy-level division never
    raises and is written with the plain [/] of [Q] (numpy would yield a
    non-finite value on a zero divisor, which is the one place where the
    value produced by the model carries no meaning).

    Failures.  A Python exception is a value [Raise e] of [pyresult];
    Python's [None] is [None].

    The real numbers of the standard library appear in one place only:
    to compare the constant 3.14159 of [calculate_volume] with pi. *)

From Stdlib Require Import String.
From Stdlib Require Import Reals Machin Qreals.
From Stdlib Require Import QArith Qminmax ZArith List Sorted Bool Lia Psatz.
Import ListNotations.
Open Scope Q_scope.

(* ================================================================== *)
(** ** Exceptions and the error monad *)

Inductive exn : Type :=
| IndexError
| KeyError
| TypeError
| ValueError
| ZeroDivisionError.

Inductive pyresult (A : Type) : Type :=
| Ok (a : A)
| Raise (e : exn).

Arguments Ok {A} a.
Arguments Raise {A} e.

Definition bind {A B : Type} (m : pyresult A) (f : A -> pyresult B) : pyresult B :=
  match m with
  | Ok a => f a
  | Raise e => Raise e
  end.

Notation "x <- m ;; k" := (bind m (fun x => k))
  (at level 61, m at next level, right associativity).

(* ================================================================== *)
(** ** Numbers *)

Definition Qlt_bool (x y : Q) : bool := negb (Qle_bool y x).

(** [a / b] on Python floats. *)
Definition pydiv (a b : Q) : pyresult Q :=
  if Qeq_bool b 0 then Raise ZeroDivisionError else Ok (a / b).

(** [math.pi], the binary64 number nearest to pi. *)
Definition math_pi : Q := 884279719003555 # 281474976710656.

(* ================================================================== *)
(** ** Lists, as Python and numpy index them *)

(** [xs[i]] for [0 <= i]. *)
Definition index {A : Type} (xs : list A) (i : nat) : pyresult A :=
  match nth_error xs i with
  | Some x => Ok x
  | None => Raise IndexError
  end.

(** [xs[-1]]. *)
Definition index_last {A : Type} (xs : list A) : pyresult A :=
  match xs with
  | [] => Raise IndexError
  | x :: tl => Ok (last tl x)
  end.

(** [sorted(xs)] on numbers. *)
Fixpoint insert_sorted (x : Q) (xs : list Q) : list Q :=
  match xs with
  | [] => [x]
  | y :: tl => if Qle_bool x y then x :: y :: tl else y :: insert_sorted x tl
  end.

Definition sorted (xs : list Q) : list Q :=
  fold_right insert_sorted [] xs.

(** A [dict] from numbers to numbers, in insertion order. *)
Definition dict : Type := list (Q * Q).

Definition keys (d : dict) : list Q := map fst d.

(** [d[k]]. *)
Definition dict_get (d : dict) (k : Q) : pyresult Q :=
  match find (fun kv => Qeq_bool (fst kv) k) d with
  | Some kv => Ok (snd kv)
  | None => Raise KeyError
  end.

(* ================================================================== *)
(** ** [BatteryThermalSimulator.get_current] (simulator.py, 58-74) *)

(** The [for i in range(len(times) - 1)] loop; running off its end is
    the function's implicit [return None]. *)
Fixpoint bracket_loop (profile : dict) (times : list Q) (t : Q) (range : list nat)
  : pyresult (option Q) :=
  match range with
  | [] => Ok None
  | i :: rest =>
      ti <- index times i ;;
      ti1 <- index times (i + 1) ;;
      if Qle_bool ti t && Qlt_bool t ti1 then
        let t1 := ti in
        let t2 := ti1 in
        i1 <- dict_get profile t1 ;;
        i2 <- dict_get profile t2 ;;
        slope <- pydiv ((i2 - i1) * (t - t1)) (t2 - t1) ;;
        Ok (Some (i1 + slope))
      else bracket_loop profile times t rest
  end.

Definition get_current (profile : dict) (t : Q) : pyresult (option Q) :=
  let times := sorted (keys profile) in
  first <- index times 0 ;;
  if Qle_bool t first then
    v <- dict_get profile first ;; Ok (Some v)
  else
    final <- index_last times ;;
    if Qle_bool final t then
      v <- dict_get profile final ;; Ok (Some v)
    else
      bracket_loop profile times t (seq 0 (length times - 1)).

(** The profile of the specification's interpolation example. *)
Definition profile_0_10 : dict := [(0, 1.0); (10, 3.0)].

(* ================================================================== *)
(** ** numpy arrays *)

(** [xs[i] = v]; the callers below only use indices inside the array. *)
Fixpoint set_nth {A : Type} (i : nat) (v : A) (xs : list A) : list A :=
  match xs, i with
  | [], _ => []
  | _ :: tl, O => v :: tl
  | x :: tl, S i' => x :: set_nth i' v tl
  end.

(** [np.linspace(start, stop, num)], with numpy's [endpoint=True]. *)
Definition linspace (start stop : Q) (num : Z) : pyresult (list Q) :=
  if (num <? 0)%Z then Raise ValueError
  else
    let div := (num - 1)%Z in
    let delta := stop - start in
    let step := delta / inject_Z div in
    let y := map (fun i => if (0 <? div)%Z
                           then inject_Z (Z.of_nat i) * step + start
                           else inject_Z (Z.of_nat i) * delta + start)
                 (seq 0 (Z.to_nat num)) in
    Ok (if (1 <? num)%Z then set_nth (Z.to_nat num - 1) stop y else y).

(** A two-dimensional array, as the list of its rows. *)
Definition field : Type := list (list Q).

Definition shape (a : field) (rows cols : nat) : Prop :=
  length a = rows /\ Forall (fun r => length r = cols) a.

(** [np.zeros((rows, cols))] and [np.ones((rows, cols))]. *)
Definition np_zeros (rows cols : nat) : field := repeat (repeat 0 cols) rows.
Definition np_ones (rows cols : nat) : field := repeat (repeat 1 cols) rows.

(** [np.zeros_like(a)]. *)
Definition np_zeros_like (a : field) : field := map (map (fun _ => 0)) a.

(** [a * x] for a scalar [x]. *)
Definition np_scale (a : field) (x : Q) : field := map (map (fun v => v * x)) a.

(** [a[i, :]] and [a[:, j]]. *)
Definition row (a : field) (i : nat) : list Q := nth i a [].
Definition col (a : field) (j : nat) : list Q := map (fun r => nth j r 0) a.

(** [a[i, j]]. *)
Definition get2 (a : field) (i j : nat) : Q := nth j (row a i) 0.

(** [a[i, j] = v], [a[i, :] = vs] and [a[:, j] = vs]. *)
Definition set2 (a : field) (i j : nat) (v : Q) : field :=
  set_nth i (set_nth j v (row a i)) a.
Definition set_row (a : field) (i : nat) (vs : list Q) : field := set_nth i vs a.
Definition set_col (a : field) (j : nat) (vs : list Q) : field :=
  map (fun rv => set_nth j (snd rv) (fst rv)) (combine a vs).

(** The indices that [-1] and [-2] denote on each axis. *)
Definition nrows (a : field) : nat := length a.
Definition ncols (a : field) : nat := length (row a 0).

(** [np.min(a)] and [np.max(a)] over all entries. *)
Definition np_min (a : field) : Q :=
  match concat a with
  | [] => 0
  | x :: tl => fold_left Qmin tl x
  end.
Definition np_max (a : field) : Q :=
  match concat a with
  | [] => 0
  | x :: tl => fold_left Qmax tl x
  end.

(* ================================================================== *)
(** ** [BatteryThermalSimulator] (simulator.py) *)

(** The parameter record handed to the constructor.  Its class is not
    part of the sources; the fields are those [__init__] reads.
    [current_profile] is the dictionary that lines 38-39 obtain from the
    stored JSON text ([json.loads] and the conversion of keys and values
    with [float]); parsing itself is not modelled. *)
Module SimulationParameters.
Record t : Type := mk {
  cell_radius : Q;
  cell_height : Q;
  thermal_conductivity : Q;
  specific_heat_capacity : Q;
  density : Q;
  initial_temperature : Q;
  ambient_temperature : Q;
  nominal_capacity : Q;
  nominal_voltage : Q;
  internal_resistance : Q;
  time_step : Q;
  max_simulation_time : Q;
  current_profile : dict
}.
End SimulationParameters.

(** [self.nr] and [self.nz]. *)
Definition nr : nat := 10.
Definition nz : nat := 20.

(** The attributes of a simulator object.  [callback] records whether a
    delivery callback was given; [current] is [None] when [get_current]
    returned Python's [None]. *)
Record Simulator : Type := mkSimulator {
  params : SimulationParameters.t;
  callback : bool;
  radius : Q;
  height : Q;
  k : Q;
  cp : Q;
  rho : Q;
  T_init : Q;
  T_amb : Q;
  capacity : Q;
  voltage : Q;
  resistance : Q;
  dt : Q;
  max_time : Q;
  current_profile : dict;
  mesh_r : list Q;
  mesh_z : list Q;
  T : field;
  current_time : Q;
  current : option Q;
  running : bool;
  paused : bool
}.

Definition set_T (v : field) (s : Simulator) : Simulator :=
  {| params := params s; callback := callback s; radius := radius s;
     height := height s; k := k s; cp := cp s; rho := rho s;
     T_init := T_init s; T_amb := T_amb s; capacity := capacity s;
     voltage := voltage s; resistance := resistance s; dt := dt s;
     max_time := max_time s; current_profile := current_profile s;
     mesh_r := mesh_r s; mesh_z := mesh_z s; T := v;
     current_time := current_time s; current := current s;
     running := running s; paused := paused s |}.

Definition set_current_time (v : Q) (s : Simulator) : Simulator :=
  {| params := params s; callback := callback s; radius := radius s;
     height := height s; k := k s; cp := cp s; rho := rho s;
     T_init := T_init s; T_amb := T_amb s; capacity := capacity s;
     voltage := voltage s; resistance := resistance s; dt := dt s;
     max_time := max_time s; current_profile := current_profile s;
     mesh_r := mesh_r s; mesh_z := mesh_z s; T := T s; current_time := v;
     current := current s; running := running s; paused := paused s |}.

Definition set_current (v : option Q) (s : Simulator) : Simulator :=
  {| params := params s; callback := callback s; radius := radius s;
     height := height s; k := k s; cp := cp s; rho := rho s;
     T_init := T_init s; T_amb := T_amb s; capacity := capacity s;
     voltage := voltage s; resistance := resistance s; dt := dt s;
     max_time := max_time s; current_profile := current_profile s;
     mesh_r := mesh_r s; mesh_z := mesh_z s; T := T s;
     current_time := current_time s; current := v; running := running s;
     paused := paused s |}.

Definition set_running (v : bool) (s : Simulator) : Simulator :=
  {| params := params s; callback := callback s; radius := radius s;
     height := height s; k := k s; cp := cp s; rho := rho s;
     T_init := T_init s; T_amb := T_amb s; capacity := capacity s;
     voltage := voltage s; resistance := resistance s; dt := dt s;
     max_time := max_time s; current_profile := current_profile s;
     mesh_r := mesh_r s; mesh_z := mesh_z s; T := T s;
     current_time := current_time s; current := current s; running := v;
     paused := paused s |}.

Definition set_paused (v : bool) (s : Simulator) : Simulator :=
  {| params := params s; callback := callback s; radius := radius s;
     height := height s; k := k s; cp := cp s; rho := rho s;
     T_init := T_init s; T_amb := T_amb s; capacity := capacity s;
     voltage := voltage s; resistance := resistance s; dt := dt s;
     max_time := max_time s; current_profile := current_profile s;
     mesh_r := mesh_r s; mesh_z := mesh_z s; T := T s;
     current_time := current_time s; current := current s;
     running := running s; paused := v |}.
(** [__init__] (lines 10-56). *)
Definition __init__ (p : SimulationParameters.t) (cb : bool) : pyresult Simulator :=
  let radius := SimulationParameters.cell_radius p / 1000 in
  let height := SimulationParameters.cell_height p / 1000 in
  let profile := SimulationParameters.current_profile p in
  mesh_r <- linspace 0 radius (Z.of_nat nr) ;;
  mesh_z <- linspace 0 height (Z.of_nat nz) ;;
  let T_init := SimulationParameters.initial_temperature p in
  current <- get_current profile 0 ;;
  Ok {| params := p;
        callback := cb;
        radius := radius;
        height := height;
        k := SimulationParameters.thermal_conductivity p;
        cp := SimulationParameters.specific_heat_capacity p;
        rho := SimulationParameters.density p;
        T_init := T_init;
        T_amb := SimulationParameters.ambient_temperature p;
        capacity := SimulationParameters.nominal_capacity p / 1000;
        voltage := SimulationParameters.nominal_voltage p;
        resistance := SimulationParameters.internal_resistance p;
        dt := SimulationParameters.time_step p;
        max_time := SimulationParameters.max_simulation_time p;
        current_profile := profile;
        mesh_r := mesh_r;
        mesh_z := mesh_z;
        T := np_scale (np_ones nr nz) T_init;
        current_time := 0;
        current := current;
        running := false;
        paused := false |}.

(** [calculate_heat_generation] (lines 76-87).  [current ** 2] on [None]
    raises [TypeError]; the division is one of Python floats. *)
Definition calculate_heat_generation (s : Simulator) (current : option Q)
  : pyresult field :=
  match current with
  | None => Raise TypeError
  | Some c =>
      let joule_heat := c ^ 2 * resistance s in
      let heat_density := np_zeros nr nz in
      v <- pydiv joule_heat (math_pi * (radius s / 3) ^ 2 * height s) ;;
      Ok (fold_left (fun a i => set_row a i (repeat v nz))
                    (seq 0 (nr / 3)) heat_density)
  end.

(** The convective boundary formula
    [x - spacing * h / k * (x - T_amb)] of lines 130, 133 and 134. *)
Definition convective (s : Simulator) (spacing h : Q) (x : Q) : Q :=
  x - spacing * h / k s * (x - T_amb s).

(** The body of the inner loop of [update_temperature] for one interior
    node (lines 109-122). *)
Definition interior_node (s : Simulator) (T_prev q : field) (alpha r dr : Q)
  (T_new : field) (i j : nat) : field :=
  let dz := nth 1 (mesh_z s) 0 - nth 0 (mesh_z s) 0 in
  let d2T_dr2 :=
    (get2 T_prev (i + 1) j - 2 * get2 T_prev i j + get2 T_prev (i - 1) j) / dr ^ 2 in
  let dT_dr := (get2 T_prev (i + 1) j - get2 T_prev (i - 1) j) / (2 * dr) in
  let d2T_dz2 :=
    (get2 T_prev i (j + 1) - 2 * get2 T_prev i j + get2 T_prev i (j - 1)) / dz ^ 2 in
  let dT_dt :=
    alpha * (d2T_dr2 + dT_dr / r + d2T_dz2) + get2 q i j / (rho s * cp s) in
  set2 T_new i j (get2 T_prev i j + dT_dt * dt s).

(** The two nested loops (lines 104-122). *)
Definition interior_update (s : Simulator) (T_prev q : field) (alpha : Q)
  (T_new : field) : field :=
  fold_left
    (fun a i =>
       let r := nth i (mesh_r s) 0 in
       let dr := nth 1 (mesh_r s) 0 - nth 0 (mesh_r s) 0 in
       fold_left (fun a' j => interior_node s T_prev q alpha r dr a' i j)
                 (seq 1 (nz - 2)) a)
    (seq 1 (nr - 2)) T_new.

(** The boundary assignments (lines 124-134), in the order of the
    source; each right-hand side is evaluated before it is stored. *)
Definition apply_boundaries (s : Simulator) (T_new : field) : field :=
  let dr := nth 1 (mesh_r s) 0 - nth 0 (mesh_r s) 0 in
  let dz := nth 1 (mesh_z s) 0 - nth 0 (mesh_z s) 0 in
  let T1 := set_row T_new 0 (row T_new 1) in
  let h := 10.0 in
  let T2 := set_row T1 (nrows T1 - 1)
              (map (convective s dr h) (row T1 (nrows T1 - 2))) in
  let T3 := set_col T2 0 (map (convective s dz h) (col T2 1)) in
  set_col T3 (ncols T3 - 1) (map (convective s dz h) (col T3 (ncols T3 - 2))).

(** [update_temperature] (lines 89-136). *)
Definition update_temperature (s : Simulator) : pyresult Simulator :=
  let T_prev := T s in
  q <- calculate_heat_generation s (current s) ;;
  alpha <- pydiv (k s) (rho s * cp s) ;;
  let T_new := np_zeros_like (T s) in
  let T_new := interior_update s T_prev q alpha T_new in
  let T_new := apply_boundaries s T_new in
  Ok (set_T T_new s).

(** The dictionary [get_temperature_data] returns (lines 138-160). *)
Record snapshot : Type := mkSnapshot {
  snap_time : Q;
  snap_current : option Q;
  center_temp : Q;
  surface_temp : Q;
  top_temp : Q;
  bottom_temp : Q;
  temp_field : field;
  min_temp : Q;
  max_temp : Q
}.

Definition get_temperature_data (s : Simulator) : snapshot :=
  {| snap_time := current_time s;
     snap_current := current s;
     center_temp := get2 (T s) 0 (nz / 2);
     surface_temp := get2 (T s) (nrows (T s) - 1) (nz / 2);
     top_temp := get2 (T s) (nr / 2) (ncols (T s) - 1);
     bottom_temp := get2 (T s) (nr / 2) 0;
     temp_field := T s;
     min_temp := np_min (T s);
     max_temp := np_max (T s) |}.

(** [pause], [resume] and [stop] (lines 193-203). *)
Definition pause (s : Simulator) : Simulator := set_paused true s.
Definition resume (s : Simulator) : Simulator := set_paused false s.
Definition stop (s : Simulator) : Simulator := set_running false s.

(* ================================================================== *)
(** ** [run_simulation] and the control commands (lines 162-203)

    [start] spawns one thread that executes [run_simulation]; the
    commands [pause], [resume] and [stop] are issued from another task
    and only write the flags [paused] and [running].  The thread is
    modelled by its position in [run_simulation] and advances by
    [run_simulation_step]; an execution is an interleaving of thread steps and
    commands ([event]).  Lines 168-183 form one step: they neither read
    nor write the two flags, so a command commutes with each of them.
    [delivered] is the sequence of dictionaries passed to the callback,
    oldest first. *)

Inductive position : Type :=
| AtEntry       (* about to execute line 164, [self.running = True] *)
| AtLoopTest    (* line 166, the [while] condition *)
| AtPauseTest   (* line 167, [if not self.paused] *)
| AtBody        (* lines 168-183 *)
| AtExit        (* line 185, [self.running = False] *)
| Returned      (* [run_simulation] has returned *)
| Died (e : exn).  (* an exception ended the thread *)

Record engine : Type := mkEngine {
  sim : Simulator;
  at_line : position;
  delivered : list snapshot
}.

(** [start] (lines 187-191). *)
Definition start (s : Simulator) : engine :=
  {| sim := s; at_line := AtEntry; delivered := [] |}.

(** Lines 168-183 of one loop iteration: the simulator afterwards, and
    either the dictionary handed to the callback (if any) or the
    exception raised. *)
Definition loop_body (s : Simulator) : Simulator * pyresult (option snapshot) :=
  match get_current (current_profile s) (current_time s) with
  | Raise e => (s, Raise e)
  | Ok c =>
      let s1 := set_current c s in
      match update_temperature s1 with
      | Raise e => (s1, Raise e)
      | Ok s2 =>
          let s3 := set_current_time (current_time s2 + dt s2) s2 in
          if callback s3
          then (s3, Ok (Some (get_temperature_data s3)))
          else (s3, Ok None)
      end
  end.

Definition run_simulation_step (e : engine) : engine :=
  match at_line e with
  | AtEntry =>
      {| sim := set_running true (sim e); at_line := AtLoopTest;
         delivered := delivered e |}
  | AtLoopTest =>
      if running (sim e) && Qlt_bool (current_time (sim e)) (max_time (sim e))
      then {| sim := sim e; at_line := AtPauseTest; delivered := delivered e |}
      else {| sim := sim e; at_line := AtExit; delivered := delivered e |}
  | AtPauseTest =>
      if negb (paused (sim e))
      then {| sim := sim e; at_line := AtBody; delivered := delivered e |}
      else {| sim := sim e; at_line := AtLoopTest; delivered := delivered e |}
  | AtBody =>
      match loop_body (sim e) with
      | (s', Ok (Some d)) =>
          {| sim := s'; at_line := AtLoopTest; delivered := delivered e ++ [d] |}
      | (s', Ok None) =>
          {| sim := s'; at_line := AtLoopTest; delivered := delivered e |}
      | (s', Raise x) =>
          {| sim := s'; at_line := Died x; delivered := delivered e |}
      end
  | AtExit =>
      {| sim := set_running false (sim e); at_line := Returned;
         delivered := delivered e |}
  | Returned => e
  | Died _ => e
  end.

Inductive event : Type :=
| Thread        (* the simulation thread takes one step *)
| CmdPause
| CmdResume
| CmdStop.

Definition exec (ev : event) (e : engine) : engine :=
  match ev with
  | Thread => run_simulation_step e
  | CmdPause =>
      {| sim := pause (sim e); at_line := at_line e; delivered := delivered e |}
  | CmdResume =>
      {| sim := resume (sim e); at_line := at_line e; delivered := delivered e |}
  | CmdStop =>
      {| sim := stop (sim e); at_line := at_line e; delivered := delivered e |}
  end.

(** An interleaving, executed from left to right. *)
Definition run (evs : list event) (e : engine) : engine :=
  fold_left (fun e' ev => exec ev e') evs e.





(** The control state the specification names, read off the flags and
    the thread's position. *)
Inductive EngineState : Type := Idle | Running | Paused | Stopped.

Definition engine_state (e : engine) : EngineState :=
  match at_line e with
  | AtEntry => Idle
  | AtLoopTest | AtPauseTest | AtBody =>
      if running (sim e)
      then if paused (sim e) then Paused else Running
      else Stopped
  | AtExit | Returned | Died _ => Stopped
  end.

(* ================================================================== *)
(** ** [BatteryCell] (models.py) *)

Module BatteryCell.
Record t : Type := mk {
  cell_type : string;
  form_factor : string;
  length : Q;
  diameter : option Q;
  height : option Q;
  width : option Q;
  volume : option Q;
  nominal_voltage : Q;
  capacity : Q;
  energy_density : Q;
  internal_resistance : Q;
  heat_resistance : Q;
  max_discharge_current : Q;
  max_charge_current : Q;
  cycle_life : Z
}.

Definition set_volume (v : option Q) (c : t) : t :=
  {| cell_type := cell_type c; form_factor := form_factor c;
     length := length c; diameter := diameter c; height := height c;
     width := width c; volume := v; nominal_voltage := nominal_voltage c;
     capacity := capacity c; energy_density := energy_density c;
     internal_resistance := internal_resistance c;
     heat_resistance := heat_resistance c;
     max_discharge_current := max_discharge_current c;
     max_charge_current := max_charge_current c;
     cycle_life := cycle_life c |}.

(** Arithmetic on a nullable field raises [TypeError] on [None]. *)
Definition number (x : option Q) : pyresult Q :=
  match x with
  | Some v => Ok v
  | None => Raise TypeError
  end.

(** [calculate_volume] (lines 40-47). *)
Definition calculate_volume (c : t) : pyresult Q :=
  if String.eqb (form_factor c) "cylindrical" then
    d <- number (diameter c) ;;
    Ok (3.14159 * (d / 2) ^ 2 * length c / 1000)
  else if String.eqb (form_factor c) "prismatic"
          || String.eqb (form_factor c) "pouch" then
    w <- number (width c) ;;
    h <- number (height c) ;;
    Ok (length c * w * h / 1000)
  else Ok 0.

(** [save] (lines 49-52).  The second component is the sequence of
    rows handed to Django's [Model.save], oldest first. *)
Definition save (c : t) (written : list t) : pyresult (t * list t) :=
  v <- calculate_volume c ;;
  let c' := set_volume (Some v) c in
  Ok (c', written ++ [c']).
End BatteryCell.

(* ================================================================== *)
(** ** [run_battery_simulation] (views.py, 86-162) *)

(** A JSON object whose values are lists of numbers. *)
Definition json_series : Type := list (string * list Q).

Definition json_get (key : string) (o : json_series) : option (list Q) :=
  match find (fun kv => String.eqb (fst kv) key) o with
  | Some kv => Some (snd kv)
  | None => None
  end.

Module SimulationResult.
Record t : Type := mk {
  battery_cell : BatteryCell.t;
  load_resistance : Q;
  initial_soc : Q;
  temperature : Q;
  simulation_duration : Z;
  emf_data : option json_series;
  terminal_voltage_data : option json_series;
  current_data : option json_series;
  resistance_data : option json_series;
  soc_data : option json_series;
  temperature_data : option json_series
}.
End SimulationResult.

(** An elementwise operation on two arrays of one length. *)
Definition map2 (f : Q -> Q -> Q) (xs ys : list Q) : list Q :=
  map (fun xy => f (fst xy) (snd xy)) (combine xs ys).

(** The SOC fraction of lines 110-111 at a time in hours. *)
Definition soc_at (initial_soc c_rate : Q) (t_hours : Q) : Q :=
  Qmax (initial_soc - (t_hours * c_rate / 5.0)) 0.0.

Definition run_battery_simulation (simulation : SimulationResult.t)
  : pyresult SimulationResult.t :=
  let cell := SimulationResult.battery_cell simulation in
  let duration_minutes := SimulationResult.simulation_duration simulation in
  let load_resistance := SimulationResult.load_resistance simulation in
  let initial_soc := SimulationResult.initial_soc simulation / 100.0 in
  let ambient_temp := SimulationResult.temperature simulation in
  time <- linspace 0 (inject_Z duration_minutes) (duration_minutes * 6)%Z ;;
  let time_hours := map (fun t => t / 60.0) time in
  let nominal_voltage := BatteryCell.nominal_voltage cell in
  let capacity_mah := BatteryCell.capacity cell in
  let capacity_ah := capacity_mah / 1000.0 in
  let base_internal_resistance := BatteryCell.internal_resistance cell / 1000.0 in
  let c_rate := 0.2 in
  let discharge_current := capacity_ah * c_rate in
  let soc := map (soc_at initial_soc c_rate) time_hours in
  let internal_resistance :=
    map (fun x => base_internal_resistance * (1 + 0.5 * (1 - x))) soc in
  let emf := map (fun x => nominal_voltage * (0.9 + 0.2 * x)) soc in
  let terminal_voltage :=
    map2 (fun e r => e - discharge_current * r) emf internal_resistance in
  let current :=
    map2 (fun v r => v / (load_resistance + r)) terminal_voltage internal_resistance in
  let heat_generated := map2 (fun i r => i ^ 2 * r) current internal_resistance in
  let temp_rise := map (fun x => x / BatteryCell.heat_resistance cell) heat_generated in
  let temperature := map (fun x => ambient_temp + x) temp_rise in
  Ok {| SimulationResult.battery_cell := cell;
        SimulationResult.load_resistance := load_resistance;
        SimulationResult.initial_soc := SimulationResult.initial_soc simulation;
        SimulationResult.temperature := ambient_temp;
        SimulationResult.simulation_duration := duration_minutes;
        SimulationResult.emf_data :=
          Some [("time"%string, time); ("emf"%string, emf)];
        SimulationResult.terminal_voltage_data :=
          Some [("time"%string, time); ("voltage"%string, terminal_voltage)];
        SimulationResult.current_data :=
          Some [("time"%string, time); ("current"%string, current)];
        SimulationResult.resistance_data :=
          Some [("time"%string, time); ("resistance"%string, internal_resistance);
                ("soc"%string, soc)];
        SimulationResult.soc_data :=
          Some [("time"%string, time); ("soc"%string, map (fun x => x * 100) soc)];
        SimulationResult.temperature_data :=
          Some [("time"%string, time); ("temperature"%string, temperature)] |}.

(* ================================================================== *)
(** ** Auxiliary notions used by the statements *)

(** The attributes that only [__init__] assigns. *)
Definition config_of (s : Simulator) :=
  (params s, callback s, radius s, height s, k s, cp s, rho s, T_init s,
   T_amb s, capacity s, voltage s, resistance s, dt s, max_time s,
   current_profile s, mesh_r s, mesh_z s).





(** The parameter ranges the specification calls valid for a discharge
    run. *)
Definition valid_parameters (simulation : SimulationResult.t) : Prop :=
  0 < SimulationResult.load_resistance simulation /\
  0 <= SimulationResult.initial_soc simulation /\
  SimulationResult.initial_soc simulation <= 100 /\
  (0 < SimulationResult.simulation_duration simulation)%Z.


(** The SOC series in percent that a run stores for a time axis. *)
Definition soc_percent (simulation : SimulationResult.t) (time : list Q) : list Q :=
  map (fun x => x * 100)
      (map (soc_at (SimulationResult.initial_soc simulation / 100.0) 0.2)
           (map (fun t => t / 60.0) time)).

(** The six result objects of a run, in the order they are assigned. *)
Definition result_objects (r : SimulationResult.t) : list (option json_series) :=
  [SimulationResult.emf_data r; SimulationResult.terminal_voltage_data r;
   SimulationResult.current_data r; SimulationResult.resistance_data r;
   SimulationResult.soc_data r; SimulationResult.temperature_data r].

(* ================================================================== *)
(** ** Sample inputs *)

(** A cylindrical 18650-sized cell under the constant 2 A profile of the
    specification's engine scenario, with a time step of 1 s. *)
Definition demo_parameters : SimulationParameters.t :=
  {| SimulationParameters.cell_radius := 9;
     SimulationParameters.cell_height := 65;
     SimulationParameters.thermal_conductivity := 3;
     SimulationParameters.specific_heat_capacity := 900;
     SimulationParameters.density := 2500;
     SimulationParameters.initial_temperature := 25;
     SimulationParameters.ambient_temperature := 25;
     SimulationParameters.nominal_capacity := 2500;
     SimulationParameters.nominal_voltage := 3.2;
     SimulationParameters.internal_resistance := 0.025;
     SimulationParameters.time_step := 1;
     SimulationParameters.max_simulation_time := 100;
     SimulationParameters.current_profile := [(0, 2.0)] |}.

(** The default lithium iron phosphate cell that [index] creates
    (views.py, 27-40) and the specification's end-to-end discharge
    request on it. *)
Definition demo_cell : BatteryCell.t :=
  {| BatteryCell.cell_type := "li_ion_phosphate";
     BatteryCell.form_factor := "cylindrical";
     BatteryCell.length := 65.0;
     BatteryCell.diameter := Some 18.0;
     BatteryCell.height := None;
     BatteryCell.width := None;
     BatteryCell.volume := None;
     BatteryCell.nominal_voltage := 3.2;
     BatteryCell.capacity := 2500;
     BatteryCell.energy_density := 120;
     BatteryCell.internal_resistance := 25;
     BatteryCell.heat_resistance := 10;
     BatteryCell.max_discharge_current := 10;
     BatteryCell.max_charge_current := 5;
     BatteryCell.cycle_life := 2000 |}.

Definition request (load_resistance initial_soc : Q) (duration : Z)
  : SimulationResult.t :=
  {| SimulationResult.battery_cell := demo_cell;
     SimulationResult.load_resistance := load_resistance;
     SimulationResult.initial_soc := initial_soc;
     SimulationResult.temperature := 25;
     SimulationResult.simulation_duration := duration;
     SimulationResult.emf_data := None;
     SimulationResult.terminal_voltage_data := None;
     SimulationResult.current_data := None;
     SimulationResult.resistance_data := None;
     SimulationResult.soc_data := None;
     SimulationResult.temperature_data := None |}.

Definition demo_request : SimulationResult.t := request 1.0 100 60.

(* ================================================================== *)
(** ** Further notions: the thermal step *)

(** The mesh spacings [dr] and [dz] of lines 106 and 109. *)
Definition mesh_dr (s : Simulator) : Q := nth 1 (mesh_r s) 0 - nth 0 (mesh_r s) 0.
Definition mesh_dz (s : Simulator) : Q := nth 1 (mesh_z s) 0 - nth 0 (mesh_z s) 0.

(** The value lines 111-122 store at the interior node [(i, j)]: one
    forward-Euler step of the cylindrical heat equation, read from the
    previous field only. *)
Definition interior_value (s : Simulator) (T_prev q : field) (alpha : Q)
  (i j : nat) : Q :=
  let r := nth i (mesh_r s) 0 in
  let dr := mesh_dr s in
  let dz := mesh_dz s in
  let d2T_dr2 :=
    (get2 T_prev (i + 1) j - 2 * get2 T_prev i j + get2 T_prev (i - 1) j) / dr ^ 2 in
  let dT_dr := (get2 T_prev (i + 1) j - get2 T_prev (i - 1) j) / (2 * dr) in
  let d2T_dz2 :=
    (get2 T_prev i (j + 1) - 2 * get2 T_prev i j + get2 T_prev i (j - 1)) / dz ^ 2 in
  let dT_dt :=
    alpha * (d2T_dr2 + dT_dr / r + d2T_dz2) + get2 q i j / (rho s * cp s) in
  get2 T_prev i j + dT_dt * dt s.

(** [(i, j)] is an interior node of the [nr] by [nz] mesh. *)
Definition interior (i j : nat) : bool :=
  (1 <=? i)%nat && (i <=? nr - 2)%nat && (1 <=? j)%nat && (j <=? nz - 2)%nat.

(** The field after the two row assignments of lines 126 and 130, in
    terms of the field [a] the loops produced. *)
Definition after_rows (s : Simulator) (a : field) (i j : nat) : Q :=
  if (i =? nr - 1)%nat then convective s (mesh_dr s) 10.0 (get2 a (nr - 2) j)
  else if (i =? 0)%nat then get2 a 1 j
  else get2 a i j.


(** The four probe temperatures of a delivered dictionary lie between
    its [min_temp] and [max_temp]. *)
Definition probes_bounded (d : snapshot) : Prop :=
  min_temp d <= center_temp d /\ center_temp d <= max_temp d /\
  min_temp d <= surface_temp d /\ surface_temp d <= max_temp d /\
  min_temp d <= top_temp d /\ top_temp d <= max_temp d /\
  min_temp d <= bottom_temp d /\ bottom_temp d <= max_temp d.

(* ================================================================== *)
(** ** Further notions: the engine *)

(** One dictionary was delivered before another, by simulated time. *)
Definition earlier (d1 d2 : snapshot) : Prop := snap_time d1 < snap_time d2.


(** The facts about simulated time that every reachable engine state
    satisfies, for a run that started at time [t0] with time step [dt0]
    and horizon [mx]: delivered times are increasing, after [t0], at most
    the current time and below [mx + dt0]; and a thread past the loop
    test has not reached the horizon. *)
Definition timeline (t0 dt0 mx : Q) (e : engine) : Prop :=
  t0 <= current_time (sim e) /\
  Forall (fun d => t0 < snap_time d /\
                   snap_time d <= current_time (sim e) /\
                   snap_time d < mx + dt0) (delivered e) /\
  StronglySorted earlier (delivered e) /\
  (at_line e = AtPauseTest \/ at_line e = AtBody ->
   current_time (sim e) < mx).

(** A paused engine whose thread is not in the middle of an iteration. *)
Definition held (e : engine) : Prop :=
  paused (sim e) = true /\ at_line e <> AtBody.

Definition is_resume (ev : event) : bool :=
  match ev with
  | CmdResume => true
  | _ => false
  end.

(* ================================================================== *)
(** ** Further notions: the discharge model *)

(** The quantities of lines 110-130 at one sample time [t], in
    minutes. *)
Definition soc_fraction_at (simulation : SimulationResult.t) (t : Q) : Q :=
  soc_at (SimulationResult.initial_soc simulation / 100.0) 0.2 (t / 60.0).

Definition resistance_at (simulation : SimulationResult.t) (t : Q) : Q :=
  BatteryCell.internal_resistance (SimulationResult.battery_cell simulation)
  / 1000.0
  * (1 + 0.5 * (1 - soc_fraction_at simulation t)).

Definition emf_at (simulation : SimulationResult.t) (t : Q) : Q :=
  BatteryCell.nominal_voltage (SimulationResult.battery_cell simulation)
  * (0.9 + 0.2 * soc_fraction_at simulation t).

Definition voltage_at (simulation : SimulationResult.t) (t : Q) : Q :=
  emf_at simulation t
  - BatteryCell.capacity (SimulationResult.battery_cell simulation) / 1000.0
    * 0.2 * resistance_at simulation t.

Definition current_at (simulation : SimulationResult.t) (t : Q) : Q :=
  voltage_at simulation t
  / (SimulationResult.load_resistance simulation + resistance_at simulation t).

Definition temperature_at (simulation : SimulationResult.t) (t : Q) : Q :=
  SimulationResult.temperature simulation
  + current_at simulation t ^ 2 * resistance_at simulation t
    / BatteryCell.heat_resistance (SimulationResult.battery_cell simulation).

(* ================================================================== *)
(** ** The views and the cell table (views.py)

    The table of [BatteryCell] rows is the list of its rows; saving an
    object that has no primary key yet adds a row at the end, which is
    what [BatteryCell.save] records.  Requests are taken after form
    validation, with the fields already parsed. *)

(** [BatteryCell.objects.get(cell_type=..., form_factor=...)]: the single
    matching row, or one of Django's two exceptions. *)
Inductive lookup : Type :=
| Found (c : BatteryCell.t)
| DoesNotExist
| MultipleObjectsReturned.

Definition matches (cell_type form_factor : string) (c : BatteryCell.t) : bool :=
  String.eqb (BatteryCell.cell_type c) cell_type
  && String.eqb (BatteryCell.form_factor c) form_factor.

Definition objects_get (table : list BatteryCell.t) (cell_type form_factor : string)
  : lookup :=
  match filter (matches cell_type form_factor) table with
  | [] => DoesNotExist
  | [c] => Found c
  | _ :: _ :: _ => MultipleObjectsReturned
  end.

(** The cell that [index] builds when none is stored (lines 26-59). *)
Definition default_cell (cell_type form_factor : string) : BatteryCell.t :=
  if String.eqb cell_type "li_ion_phosphate"
     && String.eqb form_factor "cylindrical"
  then
    {| BatteryCell.cell_type := cell_type;
       BatteryCell.form_factor := form_factor;
       BatteryCell.length := 65.0;
       BatteryCell.diameter := Some 18.0;
       BatteryCell.height := None;
       BatteryCell.width := None;
       BatteryCell.volume := None;
       BatteryCell.nominal_voltage := 3.2;
       BatteryCell.capacity := 2500;
       BatteryCell.energy_density := 120;
       BatteryCell.internal_resistance := 25;
       BatteryCell.heat_resistance := 10;
       BatteryCell.max_discharge_current := 10;
       BatteryCell.max_charge_current := 5;
       BatteryCell.cycle_life := 2000 |}
  else
    {| BatteryCell.cell_type := cell_type;
       BatteryCell.form_factor := form_factor;
       BatteryCell.length := 60.0;
       BatteryCell.diameter := Some 18.0;
       BatteryCell.height := Some 10.0;
       BatteryCell.width := Some 30.0;
       BatteryCell.volume := None;
       BatteryCell.nominal_voltage := 3.7;
       BatteryCell.capacity := 2000;
       BatteryCell.energy_density := 100;
       BatteryCell.internal_resistance := 30;
       BatteryCell.heat_resistance := 12;
       BatteryCell.max_discharge_current := 8;
       BatteryCell.max_charge_current := 4;
       BatteryCell.cycle_life := 1500 |}.

(** An exception that leaves a view uncaught. *)
Inductive failure : Type :=
| PythonError (e : exn)
| MultipleObjects.

(** Lines 22-60 of [index]: look the cell up, create and save the
    default one when there is none.  Only [DoesNotExist] is caught. *)
Definition get_or_create_cell (table : list BatteryCell.t)
  (cell_type form_factor : string)
  : (BatteryCell.t * list BatteryCell.t) + failure :=
  match objects_get table cell_type form_factor with
  | Found c => inl (c, table)
  | MultipleObjectsReturned => inr MultipleObjects
  | DoesNotExist =>
      match BatteryCell.save (default_cell cell_type form_factor) table with
      | Ok (c, table') => inl (c, table')
      | Raise e => inr (PythonError e)
      end
  end.

(** The stored state the views work on, and what [index] answers to a
    POST with valid forms (lines 17-70): a redirect to the results of the
    stored simulation, or an uncaught exception.  Rows written before an
    exception stay written. *)
Record database : Type := mkDatabase {
  cells : list BatteryCell.t;
  simulations : list SimulationResult.t
}.

Inductive index_response : Type :=
| Redirect (simulation_id : nat)
| ServerError (f : failure).

Definition index_post (db : database) (cell_type form_factor : string)
  (load_resistance initial_soc temperature : Q) (duration : Z)
  : database * index_response :=
  match get_or_create_cell (cells db) cell_type form_factor with
  | inr f => (db, ServerError f)
  | inl (cell, table) =>
      let simulation :=
        {| SimulationResult.battery_cell := cell;
           SimulationResult.load_resistance := load_resistance;
           SimulationResult.initial_soc := initial_soc;
           SimulationResult.temperature := temperature;
           SimulationResult.simulation_duration := duration;
           SimulationResult.emf_data := None;
           SimulationResult.terminal_voltage_data := None;
           SimulationResult.current_data := None;
           SimulationResult.resistance_data := None;
           SimulationResult.soc_data := None;
           SimulationResult.temperature_data := None |} in
      match run_battery_simulation simulation with
      | Raise e =>
          ({| cells := table; simulations := simulations db |},
           ServerError (PythonError e))
      | Ok r =>
          ({| cells := table; simulations := simulations db ++ [r] |},
           Redirect (length (simulations db)))
      end
  end.

(** [get_cell_specs] (lines 163-182): the specification of the stored
    cell as a JSON object, or the 404 answer. *)
Inductive specs_response : Type :=
| Specs (fields : list (string * option Q))
| NotFound404.

Definition get_cell_specs (table : list BatteryCell.t)
  (cell_type form_factor : string) : specs_response + failure :=
  match objects_get table cell_type form_factor with
  | Found cell =>
      inl (Specs
             [("length"%string, Some (BatteryCell.length cell));
              ("diameter"%string, BatteryCell.diameter cell);
              ("height"%string, BatteryCell.height cell);
              ("width"%string, BatteryCell.width cell);
              ("volume"%string, BatteryCell.volume cell);
              ("energy_density"%string, Some (BatteryCell.energy_density cell));
              ("nominal_voltage"%string, Some (BatteryCell.nominal_voltage cell));
              ("capacity"%string, Some (BatteryCell.capacity cell));
              ("internal_resistance"%string,
               Some (BatteryCell.internal_resistance cell));
              ("heat_resistance"%string, Some (BatteryCell.heat_resistance cell))])
  | DoesNotExist => inl NotFound404
  | MultipleObjectsReturned => inr MultipleObjects
  end.

(** At most one stored cell per pair of cell type and form factor. *)
Definition one_cell_per_key (table : list BatteryCell.t) : Prop :=
  forall cell_type form_factor,
    (length (filter (matches cell_type form_factor) table) <= 1)%nat.

(** [simulation_results] (lines 77-84) looks the stored simulation up by
    its id, here its position in the table; a missing row raises
    [DoesNotExist], which the view does not catch. *)
Definition simulation_results (db : database) (simulation_id : nat)
  : option SimulationResult.t :=
  nth_error (simulations db) simulation_id.

(* ================================================================== *)
(** * Properties *)

(** ** Comparisons and the error monad *)

Lemma Qlt_bool_iff (x y : Q) : Qlt_bool x y = true <-> x < y.
Proof.
  unfold Qlt_bool. rewrite negb_true_iff.
  split; intro H.
  - apply Qnot_le_lt. intro Hle. apply Qle_bool_iff in Hle. congruence.
  - destruct (Qle_bool y x) eqn:E; [|reflexivity].
    apply Qle_bool_iff in E. exfalso. apply (Qlt_not_le _ _ H E).
Qed.

Lemma Qle_bool_false (x y : Q) : Qle_bool x y = false <-> y < x.
Proof.
  rewrite <- Qlt_bool_iff. unfold Qlt_bool.
  destruct (Qle_bool x y); simpl; split; congruence.
Qed.

Lemma pydiv_ok (a b : Q) : ~ b == 0 -> pydiv a b = Ok (a / b).
Proof.
  intro Hb. unfold pydiv.
  destruct (Qeq_bool b 0) eqn:E; [|reflexivity].
  apply Qeq_bool_iff in E. contradiction.
Qed.

Lemma pydiv_zero (a b : Q) : b == 0 -> pydiv a b = Raise ZeroDivisionError.
Proof.
  intro Hb. unfold pydiv. apply Qeq_bool_iff in Hb. now rewrite Hb.
Qed.

(** ** Sorting and dictionary lookup *)

Lemma insert_sorted_In (x y : Q) (xs : list Q) :
  In x (insert_sorted y xs) <-> x = y \/ In x xs.
Proof.
  induction xs as [|z tl IH]; simpl.
  - intuition.
  - destruct (Qle_bool y z); simpl; [intuition|].
    rewrite IH. intuition.
Qed.

Lemma sorted_In (x : Q) (xs : list Q) : In x (sorted xs) <-> In x xs.
Proof.
  induction xs as [|y tl IH]; simpl; [tauto|].
  rewrite insert_sorted_In, IH. intuition.
Qed.

Lemma insert_sorted_sorted (y : Q) (xs : list Q) :
  Sorted.LocallySorted Qle xs -> Sorted.LocallySorted Qle (insert_sorted y xs).
Proof.
  induction 1 as [|a|a b l Hl IH Hab]; simpl.
  - constructor.
  - destruct (Qle_bool y a) eqn:E.
    + apply Qle_bool_iff in E. repeat constructor. assumption.
    + apply Qle_bool_false in E. repeat constructor. now apply Qlt_le_weak.
  - destruct (Qle_bool y a) eqn:E.
    + apply Qle_bool_iff in E. repeat constructor; assumption.
    + apply Qle_bool_false in E. simpl in IH.
      destruct (Qle_bool y b) eqn:E'.
      * apply Qle_bool_iff in E'. repeat constructor; try assumption.
        now apply Qlt_le_weak.
      * constructor; assumption.
Qed.

(** [sorted] returns its argument's elements in non-decreasing order. *)
Lemma sorted_is_sorted (xs : list Q) : Sorted.LocallySorted Qle (sorted xs).
Proof.
  induction xs as [|y tl IH]; simpl; [constructor|].
  now apply insert_sorted_sorted.
Qed.

Lemma insert_sorted_length (y : Q) (xs : list Q) :
  length (insert_sorted y xs) = S (length xs).
Proof.
  induction xs as [|z tl IH]; simpl; [reflexivity|].
  destruct (Qle_bool y z); simpl; [reflexivity|now rewrite IH].
Qed.

Lemma sorted_length (xs : list Q) : length (sorted xs) = length xs.
Proof.
  induction xs as [|y tl IH]; simpl; [reflexivity|].
  now rewrite insert_sorted_length, IH.
Qed.

Lemma dict_get_key (d : dict) (x : Q) :
  In x (keys d) -> exists v, dict_get d x = Ok v.
Proof.
  unfold dict_get, keys. intro Hin.
  destruct (find (fun kv => Qeq_bool (fst kv) x) d) as [kv|] eqn:E.
  - now exists (snd kv).
  - apply in_map_iff in Hin. destruct Hin as [[a b] [Hk Hin]].
    apply (find_none _ _ E) in Hin. simpl in *. subst a.
    assert (Qeq_bool x x = true) by (apply Qeq_bool_iff; reflexivity).
    congruence.
Qed.

Lemma last_default {A : Type} (a : A) (tl : list A) (x y : A) :
  last (a :: tl) x = last (a :: tl) y.
Proof.
  revert a. induction tl as [|b tl IH]; intro a; [reflexivity|].
  change (last (b :: tl) x = last (b :: tl) y). apply IH.
Qed.

Lemma nth_error_last {A : Type} (x : A) (tl : list A) :
  nth_error (x :: tl) (length tl) = Some (last tl x).
Proof.
  revert x. induction tl as [|y tl IH]; intro x; [reflexivity|].
  change (nth_error (y :: tl) (length tl) = Some (last (y :: tl) x)).
  rewrite IH. destruct tl as [|z tl]; [reflexivity|].
  change (last (y :: z :: tl) x) with (last (z :: tl) x).
  f_equal. apply last_default.
Qed.

(** ** [get_current]: the bracketing loop always finds its pair *)

Section Bracket.

Variable profile : dict.
Variable times : list Q.
Variable t : Q.

Hypothesis times_are_keys :
  forall x, In x times -> exists v, dict_get profile x = Ok v.

Lemma bracket_loop_finds (n : nat) :
  forall i lo hi,
    (i + n = length times - 1)%nat ->
    nth_error times i = Some lo -> lo <= t ->
    nth_error times (length times - 1) = Some hi -> t < hi ->
    exists v, bracket_loop profile times t (seq i n) = Ok (Some v).
Proof.
  induction n as [|n IH]; intros i lo hi Hlen Hlo Hle Hhi Hlt.
  - exfalso. replace (length times - 1)%nat with i in Hhi by lia.
    rewrite Hlo in Hhi. injection Hhi as ->.
    apply (Qlt_not_le _ _ Hlt Hle).
  - simpl. unfold index at 1. rewrite Hlo. simpl.
    destruct (nth_error times (i + 1)) as [nxt|] eqn:Hnxt.
    2:{ apply nth_error_None in Hnxt. lia. }
    unfold index at 1. rewrite Hnxt. simpl.
    destruct (Qle_bool lo t && Qlt_bool t nxt) eqn:Hcond.
    + apply andb_true_iff in Hcond. destruct Hcond as [_ Hup].
      apply Qlt_bool_iff in Hup.
      destruct (times_are_keys lo) as [i1 Hi1];
        [eapply nth_error_In; eassumption|].
      destruct (times_are_keys nxt) as [i2 Hi2];
        [eapply nth_error_In; eassumption|].
      rewrite Hi1, Hi2. simpl.
      rewrite pydiv_ok.
      * simpl. eexists. reflexivity.
      * intro Hz. assert (lo < nxt) by (eapply Qle_lt_trans; eassumption).
        lra.
    + apply andb_false_iff in Hcond.
      assert (Hge : nxt <= t).
      { destruct Hcond as [Hc|Hc].
        - apply Qle_bool_false in Hc. exfalso. apply (Qlt_not_le _ _ Hc Hle).
        - unfold Qlt_bool in Hc. apply negb_false_iff in Hc.
          now apply Qle_bool_iff in Hc. }
      apply (IH (S i) nxt hi); try assumption; try lia.
      now rewrite <- Nat.add_1_r.
Qed.

End Bracket.

Lemma get_current_defined (profile : dict) (t : Q) :
  profile <> [] -> exists v, get_current profile t = Ok (Some v).
Proof.
  intro Hne. unfold get_current.
  assert (Hkeys : forall x, In x (sorted (keys profile)) ->
                            exists v, dict_get profile x = Ok v).
  { intros x Hx. apply dict_get_key. now apply sorted_In. }
  destruct (sorted (keys profile)) as [|first tl] eqn:Es.
  { exfalso. apply (f_equal (@length Q)) in Es.
    rewrite sorted_length in Es. unfold keys in Es. rewrite length_map in Es.
    destruct profile; [congruence|discriminate]. }
  cbn [index nth_error bind].
  destruct (Qle_bool t first) eqn:E1.
  - destruct (Hkeys first) as [v Hv]; [now left|].
    rewrite Hv. simpl. now exists v.
  - cbn [index_last bind].
    destruct (Qle_bool (last tl first) t) eqn:E2.
    + destruct (Hkeys (last tl first)) as [v Hv].
      { eapply nth_error_In. apply nth_error_last. }
      rewrite Hv. simpl. now exists v.
    + apply Qle_bool_false in E1. apply Qle_bool_false in E2.
      apply (bracket_loop_finds profile (first :: tl) t Hkeys)
        with (lo := first) (hi := last tl first).
      * simpl. lia.
      * reflexivity.
      * now apply Qlt_le_weak.
      * replace (length (first :: tl) - 1)%nat with (length tl)
          by (simpl; lia).
        apply nth_error_last.
      * assumption.
Qed.

Lemma bracket_exists (times : list Q) (t : Q) (n : nat) :
  forall i lo hi,
    (i + n = length times - 1)%nat ->
    nth_error times i = Some lo -> lo <= t ->
    nth_error times (length times - 1) = Some hi -> t < hi ->
    exists j tj tj1,
      (j < length times - 1)%nat /\
      nth_error times j = Some tj /\ nth_error times (j + 1) = Some tj1 /\
      tj <= t /\ t < tj1.
Proof.
  induction n as [|n IH]; intros i lo hi Hlen Hlo Hle Hhi Hlt.
  - exfalso. replace (length times - 1)%nat with i in Hhi by lia.
    rewrite Hlo in Hhi. injection Hhi as ->.
    apply (Qlt_not_le _ _ Hlt Hle).
  - destruct (nth_error times (i + 1)) as [nxt|] eqn:Hnxt.
    2:{ apply nth_error_None in Hnxt. lia. }
    destruct (Qlt_le_dec t nxt) as [Hup|Hge].
    + exists i, lo, nxt. repeat split; try assumption. lia.
    + apply (IH (S i) nxt hi); try assumption; try lia.
      now rewrite <- Nat.add_1_r.
Qed.

(** C10.  For a non-empty current profile and any time [t],
    [get_current] returns a number, never Python's [None]: whenever [t]
    lies strictly between the first and the last sorted timestamp, some
    consecutive pair [times[i] <= t < times[i+1]] exists, so the loop
    cannot run off its end. *)
Theorem get_current_returns_number (profile : dict) (t : Q) :
  profile <> [] ->
  (exists v, get_current profile t = Ok (Some v)) /\
  (forall first final,
      index (sorted (keys profile)) 0 = Ok first ->
      index_last (sorted (keys profile)) = Ok final ->
      first < t -> t < final ->
      exists i ti ti1,
        (i < length (sorted (keys profile)) - 1)%nat /\
        index (sorted (keys profile)) i = Ok ti /\
        index (sorted (keys profile)) (i + 1) = Ok ti1 /\
        ti <= t /\ t < ti1).
Proof.
  intro Hne. split; [now apply get_current_defined|].
  intros first final Hfirst Hfinal Hlo Hhi.
  destruct (sorted (keys profile)) as [|x tl] eqn:Es; [discriminate|].
  cbn in Hfirst. injection Hfirst as ->.
  cbn in Hfinal. injection Hfinal as Hfinal.
  destruct (bracket_exists (first :: tl) t (length tl) 0%nat first final)
    as (j & tj & tj1 & Hj & H1 & H2 & H3 & H4).
  - simpl. lia.
  - reflexivity.
  - now apply Qlt_le_weak.
  - replace (length (first :: tl) - 1)%nat with (length tl) by (simpl; lia).
    rewrite nth_error_last. now rewrite Hfinal.
  - assumption.
  - exists j, tj, tj1. unfold index. rewrite H1, H2. auto.
Qed.

Lemma get_current_returns_number_witness :
  profile_0_10 <> [] /\
  (exists v, get_current profile_0_10 5 = Ok (Some v)) /\
  (exists i ti ti1,
      (i < length (sorted (keys profile_0_10)) - 1)%nat /\
      index (sorted (keys profile_0_10)) i = Ok ti /\
      index (sorted (keys profile_0_10)) (i + 1) = Ok ti1 /\
      ti <= 5 /\ 5 < ti1).
Proof.
  assert (Hne : profile_0_10 <> []) by discriminate.
  split; [exact Hne|].
  split.
  - exact (proj1 (get_current_returns_number profile_0_10 5 Hne)).
  - apply (proj2 (get_current_returns_number profile_0_10 5 Hne) 0 10).
    + reflexivity.
    + reflexivity.
    + reflexivity.
    + reflexivity.
Defined.


(** ** Arrays *)

Lemma set_nth_length {A : Type} (i : nat) (v : A) (xs : list A) :
  length (set_nth i v xs) = length xs.
Proof.
  revert i. induction xs as [|x tl IH]; intros [|i]; simpl; auto.
Qed.

Lemma nth_set_nth_eq {A : Type} (i : nat) (v d : A) (xs : list A) :
  (i < length xs)%nat -> nth i (set_nth i v xs) d = v.
Proof.
  revert i. induction xs as [|x tl IH]; intros [|i] H; simpl in *;
    try lia; auto. apply IH. lia.
Qed.

Lemma nth_set_nth_neq {A : Type} (i j : nat) (v d : A) (xs : list A) :
  i <> j -> nth j (set_nth i v xs) d = nth j xs d.
Proof.
  revert i j. induction xs as [|x tl IH]; intros [|i] [|j] H; simpl;
    try congruence; auto.
Qed.

Lemma Forall_set_nth {A : Type} (P : A -> Prop) (i : nat) (v : A) (xs : list A) :
  Forall P xs -> P v -> Forall P (set_nth i v xs).
Proof.
  intros Hxs Hv. revert i.
  induction Hxs as [|x tl Hx Htl IH]; intros [|i]; simpl; auto.
Qed.

Lemma set_col_rowwise (a : field) (j j' : nat) (f : Q -> Q) :
  set_col a j (map f (col a j')) =
  map (fun r => set_nth j (f (nth j' r 0)) r) a.
Proof.
  unfold set_col, col.
  induction a as [|r tl IH]; simpl; [reflexivity|].
  now rewrite IH.
Qed.

Lemma shape_row (a : field) (rows cols i : nat) :
  shape a rows cols -> (i < rows)%nat -> length (row a i) = cols.
Proof.
  intros [Hlen Hall] Hi. unfold row.
  rewrite Forall_forall in Hall. apply Hall. apply nth_In. lia.
Qed.

Lemma shape_set_row (a : field) (rows cols i : nat) (vs : list Q) :
  shape a rows cols -> length vs = cols -> shape (set_row a i vs) rows cols.
Proof.
  intros [Hlen Hall] Hvs. unfold set_row. split.
  - now rewrite set_nth_length.
  - now apply Forall_set_nth.
Qed.

Lemma set_nth_overflow {A : Type} (i : nat) (v : A) (xs : list A) :
  (length xs <= i)%nat -> set_nth i v xs = xs.
Proof.
  revert i. induction xs as [|x tl IH]; intros [|i] H; simpl in *;
    try lia; auto. f_equal. apply IH. lia.
Qed.

Lemma shape_set2 (a : field) (rows cols i j : nat) (v : Q) :
  shape a rows cols -> shape (set2 a i j v) rows cols.
Proof.
  intros Hs. unfold set2.
  destruct (Nat.lt_ge_cases i rows) as [Hi|Hi].
  - apply shape_set_row; [assumption|].
    rewrite set_nth_length. eapply shape_row; eassumption.
  - rewrite set_nth_overflow; [assumption|]. destruct Hs. lia.
Qed.

Lemma fold_left_invariant {A B : Type} (P : A -> Prop) (f : A -> B -> A)
  (l : list B) (a : A) :
  (forall x b, P x -> P (f x b)) -> P a -> P (fold_left f l a).
Proof.
  intro Hstep. revert a. induction l as [|b tl IH]; intros a Ha; simpl; auto.
Qed.

Lemma row_map (f : list Q -> list Q) (a : field) (i : nat) :
  (i < length a)%nat -> row (map f a) i = f (row a i).
Proof.
  intro Hi. unfold row.
  rewrite (nth_indep (map f a) [] (f [])) by (now rewrite length_map).
  apply map_nth.
Qed.

Lemma shape_zeros_like (a : field) (rows cols : nat) :
  shape a rows cols -> shape (np_zeros_like a) rows cols.
Proof.
  intros [Hlen Hall]. unfold np_zeros_like. split.
  - now rewrite length_map.
  - apply Forall_map. eapply Forall_impl; [|exact Hall].
    intros r Hr. simpl. now rewrite length_map.
Qed.

Lemma shape_rowwise (a : field) (rows cols : nat) (f : list Q -> list Q) :
  (forall r, length (f r) = length r) ->
  shape a rows cols -> shape (map f a) rows cols.
Proof.
  intros Hf [Hlen Hall]. split.
  - now rewrite length_map.
  - apply Forall_map. eapply Forall_impl; [|exact Hall].
    intros r Hr. simpl. now rewrite Hf.
Qed.

(** ** [update_temperature]: shape, symmetry at the axis, success *)

Lemma shape_interior_update (s : Simulator) (T_prev q : field) (alpha : Q)
  (a : field) (rows cols : nat) :
  shape a rows cols -> shape (interior_update s T_prev q alpha a) rows cols.
Proof.
  intro Hs. unfold interior_update.
  apply fold_left_invariant; [|assumption].
  intros x i Hx. apply fold_left_invariant; [|assumption].
  intros y j Hy. unfold interior_node. now apply shape_set2.
Qed.

Lemma shape_apply_boundaries (s : Simulator) (a : field) (rows cols : nat) :
  (2 <= rows)%nat -> shape a rows cols ->
  shape (apply_boundaries s a) rows cols.
Proof.
  intros Hrows Hs. unfold apply_boundaries. cbv zeta.
  rewrite !set_col_rowwise.
  apply shape_rowwise; [intro r; apply set_nth_length|].
  apply shape_rowwise; [intro r; apply set_nth_length|].
  assert (H1 : shape (set_row a 0 (row a 1)) rows cols).
  { apply shape_set_row; [assumption|]. eapply shape_row; [eassumption|lia]. }
  apply shape_set_row; [assumption|].
  rewrite length_map. eapply shape_row; [eassumption|].
  unfold nrows. destruct H1 as [Hlen _]. rewrite Hlen. lia.
Qed.


Lemma heat_generation_ok (s : Simulator) (c : Q) :
  ~ radius s == 0 -> ~ height s == 0 ->
  exists q, calculate_heat_generation s (Some c) = Ok q.
Proof.
  intros Hr Hh. unfold calculate_heat_generation.
  rewrite pydiv_ok.
  - simpl. eexists. reflexivity.
  - intro Hz.
    apply Qmult_integral in Hz. destruct Hz as [Hz|Hz]; [|contradiction].
    apply Qmult_integral in Hz. destruct Hz as [Hz|Hz]; [discriminate Hz|].
    change ((radius s / 3) ^ 2) with ((radius s / 3) * (radius s / 3)) in Hz.
    apply Qmult_integral in Hz.
    assert (Hr3 : radius s / 3 == 0) by tauto.
    apply Hr. unfold Qdiv in Hr3.
    apply Qmult_integral in Hr3. destruct Hr3 as [Hr3|Hr3];
      [assumption|discriminate Hr3].
Qed.


Lemma update_temperature_result (s s' : Simulator) :
  update_temperature s = Ok s' ->
  exists a, length a = length (T s) /\
            (forall rows cols, shape (T s) rows cols -> shape a rows cols) /\
            s' = set_T (apply_boundaries s a) s.
Proof.
  unfold update_temperature.
  destruct (calculate_heat_generation s (current s)) as [q|e]; [|discriminate].
  destruct (pydiv (k s) (rho s * cp s)) as [alpha|e]; [|discriminate].
  simpl. intro H. injection H as <-.
  exists (interior_update s (T s) q alpha (np_zeros_like (T s))).
  split; [|split; [|reflexivity]].
  - unfold interior_update.
    apply (fold_left_invariant (fun a => length a = length (T s))).
    + intros x i Hx.
      apply (fold_left_invariant (fun a => length a = length (T s)));
        [|assumption].
      intros y j Hy. unfold interior_node, set2. now rewrite set_nth_length.
    + unfold np_zeros_like. now rewrite length_map.
  - intros rows cols Hs.
    now apply shape_interior_update, shape_zeros_like.
Qed.



(** ** [np.min] and [np.max] *)

Lemma fold_Qmin_le (xs : list Q) (x : Q) : fold_left Qmin xs x <= x.
Proof.
  revert x. induction xs as [|y tl IH]; intro x; simpl.
  - apply Qle_refl.
  - eapply Qle_trans; [apply IH|apply Q.le_min_l].
Qed.

Lemma fold_Qmax_ge (xs : list Q) (x : Q) : x <= fold_left Qmax xs x.
Proof.
  revert x. induction xs as [|y tl IH]; intro x; simpl.
  - apply Qle_refl.
  - eapply Qle_trans; [apply Q.le_max_l|apply IH].
Qed.


(** ** The simulation thread *)


Lemma update_temperature_config (s s' : Simulator) :
  update_temperature s = Ok s' ->
  config_of s' = config_of s /\ running s' = running s /\
  paused s' = paused s /\ current_time s' = current_time s /\
  current s' = current s.
Proof.
  intro H. destruct (update_temperature_result s s' H) as (a & _ & _ & ->).
  repeat split.
Qed.

Lemma loop_body_flags (s : Simulator) :
  running (fst (loop_body s)) = running s /\
  paused (fst (loop_body s)) = paused s /\
  config_of (fst (loop_body s)) = config_of s.
Proof.
  unfold loop_body.
  destruct (get_current (current_profile s) (current_time s)) as [c|x];
    [|repeat split].
  destruct (update_temperature (set_current c s)) as [s2|x] eqn:E;
    [|repeat split].
  apply update_temperature_config in E.
  destruct E as (Hc & Hr & Hp & _ & _).
  assert (Hgoal : running (set_current_time (current_time s2 + dt s2) s2)
                  = running s /\
                  paused (set_current_time (current_time s2 + dt s2) s2)
                  = paused s /\
                  config_of (set_current_time (current_time s2 + dt s2) s2)
                  = config_of s).
  { repeat split; [exact Hr|exact Hp|]. exact Hc. }
  destruct (callback (set_current_time (current_time s2 + dt s2) s2));
    exact Hgoal.
Qed.


Lemma linspace_ok (a b : Q) (num : Z) :
  (0 <= num)%Z ->
  exists l, linspace a b num = Ok l /\ length l = Z.to_nat num.
Proof.
  intro H. unfold linspace.
  destruct (num <? 0)%Z eqn:E; [apply Z.ltb_lt in E; lia|].
  eexists. split; [reflexivity|].
  destruct (1 <? num)%Z;
    rewrite ?set_nth_length, length_map, length_seq; reflexivity.
Qed.

Lemma linspace_negative (a b : Q) (num : Z) :
  (num < 0)%Z -> linspace a b num = Raise ValueError.
Proof.
  intro H. unfold linspace. apply Z.ltb_lt in H. now rewrite H.
Qed.

(** [__init__] fails only on an empty profile. *)
Lemma init_ok (p : SimulationParameters.t) (cb : bool) :
  SimulationParameters.current_profile p <> [] ->
  exists s0,
    __init__ p cb = Ok s0 /\
    callback s0 = cb /\
    radius s0 = SimulationParameters.cell_radius p / 1000 /\
    height s0 = SimulationParameters.cell_height p / 1000 /\
    rho s0 = SimulationParameters.density p /\
    cp s0 = SimulationParameters.specific_heat_capacity p /\
    dt s0 = SimulationParameters.time_step p /\
    max_time s0 = SimulationParameters.max_simulation_time p /\
    current_profile s0 = SimulationParameters.current_profile p /\
    current_time s0 = 0 /\ running s0 = false /\ paused s0 = false /\
    shape (T s0) nr nz.
Proof.
  intro Hne. unfold __init__.
  destruct (linspace_ok 0 (SimulationParameters.cell_radius p / 1000)
              (Z.of_nat nr)) as (mr & -> & _); [lia|].
  destruct (linspace_ok 0 (SimulationParameters.cell_height p / 1000)
              (Z.of_nat nz)) as (mz & -> & _); [lia|].
  destruct (get_current_defined _ 0 Hne) as [c ->].
  cbn [bind]. eexists. split; [reflexivity|].
  cbn. repeat split. repeat constructor.
Qed.

Lemma init_empty_profile (p : SimulationParameters.t) (cb : bool) :
  SimulationParameters.current_profile p = [] ->
  __init__ p cb = Raise IndexError.
Proof.
  intro He. unfold __init__.
  destruct (linspace_ok 0 (SimulationParameters.cell_radius p / 1000)
              (Z.of_nat nr)) as (mr & -> & _); [lia|].
  destruct (linspace_ok 0 (SimulationParameters.cell_height p / 1000)
              (Z.of_nat nz)) as (mz & -> & _); [lia|].
  rewrite He. reflexivity.
Qed.



Lemma config_fields (s s' : Simulator) :
  config_of s = config_of s' ->
  callback s = callback s' /\ radius s = radius s' /\
  height s = height s' /\ rho s = rho s' /\ cp s = cp s' /\
  dt s = dt s' /\ max_time s = max_time s' /\
  current_profile s = current_profile s'.
Proof.
  unfold config_of. intro H. injection H. intros. repeat split; assumption.
Qed.

Section Scenario.

Variable s0 : Simulator.

Hypothesis callback_given : callback s0 = true.
Hypothesis not_paused : paused s0 = false.
Hypothesis starts_at_zero : current_time s0 = 0.
Hypothesis profile_given : current_profile s0 <> [].
Hypothesis radius_nonzero : ~ radius s0 == 0.
Hypothesis height_nonzero : ~ height s0 == 0.
Hypothesis rho_cp_nonzero : ~ rho s0 * cp s0 == 0.
Hypothesis unit_step : dt s0 == 1.
Hypothesis horizon : 100 <= max_time s0.


End Scenario.



(** ** Stopping *)







(** A [stop] that arrives before the new thread has executed line 164
    is overwritten by it: the flag is set again and the loop runs. *)
Lemma stop_before_entry_is_overwritten (s : Simulator) :
  running (sim (exec Thread (exec CmdStop (start s)))) = true /\
  at_line (exec Thread (exec CmdStop (start s))) = AtLoopTest.
Proof. split; reflexivity. Qed.



(** C9.  [pause] and [resume] are idempotent on the control state:
    pausing a running engine twice leaves it [Paused], exactly as
    pausing it once does, and resuming an engine that is already
    [Running] leaves it unchanged, hence [Running]; on the simulator
    object either command applied twice equals the command applied
    once. *)
Theorem pause_resume_idempotent (e : engine) :
  engine_state e = Running ->
  engine_state (exec CmdPause e) = Paused /\
  exec CmdPause (exec CmdPause e) = exec CmdPause e /\
  engine_state (exec CmdPause (exec CmdPause e)) = Paused /\
  exec CmdResume e = e /\
  engine_state (exec CmdResume e) = Running /\
  (forall s, pause (pause s) = pause s) /\
  (forall s, resume (resume s) = resume s).
Proof.
  intro Hstate.
  destruct e as [s pos log]. destruct s. unfold engine_state in *.
  simpl in *.
  destruct pos; try discriminate;
    (destruct running0; [|discriminate]);
    (destruct paused0; [discriminate|]);
    repeat split.
Qed.

Lemma pause_resume_idempotent_witness :
  exists s0,
    __init__ demo_parameters true = Ok s0 /\
    engine_state (exec Thread (start s0)) = Running /\
    engine_state (exec CmdPause (exec CmdPause (exec Thread (start s0))))
    = Paused /\
    engine_state (exec CmdResume (exec Thread (start s0))) = Running.
Proof.
  destruct (init_ok demo_parameters true)
    as (s0 & Hinit & _ & _ & _ & _ & _ & _ & _ & _ & _ & _ & Hpau & _);
    [discriminate|].
  exists s0. split; [exact Hinit|].
  assert (Hstate : engine_state (exec Thread (start s0)) = Running).
  { unfold engine_state. simpl. now rewrite Hpau. }
  split; [exact Hstate|].
  destruct (pause_resume_idempotent (exec Thread (start s0)) Hstate)
    as (_ & _ & Hpp & _ & Hres & _).
  split; [exact Hpp|exact Hres].
Defined.

(** ** [np.linspace] *)

Lemma linspace_values (a b : Q) (num : Z) (l : list Q) :
  linspace a b num = Ok l -> (1 < num)%Z ->
  forall i t, nth_error l i = Some t ->
    t == a + inject_Z (Z.of_nat i) * ((b - a) / inject_Z (num - 1)).
Proof.
  intros Hl Hnum i t Hi. unfold linspace in Hl.
  destruct (num <? 0)%Z eqn:E0; [discriminate|].
  assert (E1 : (0 <? num - 1)%Z = true) by (apply Z.ltb_lt; lia).
  assert (E2 : (1 <? num)%Z = true) by (apply Z.ltb_lt; lia).
  rewrite E2 in Hl. injection Hl as <-.
  assert (Hlen : (i < Z.to_nat num)%nat).
  { assert (Hsome : nth_error
                      (set_nth (Z.to_nat num - 1) b
                         (map (fun i0 : nat =>
                                 if (0 <? num - 1)%Z
                                 then inject_Z (Z.of_nat i0) *
                                      ((b - a) / inject_Z (num - 1)) + a
                                 else inject_Z (Z.of_nat i0) * (b - a) + a)
                              (seq 0 (Z.to_nat num)))) i <> None)
      by congruence.
    apply nth_error_Some in Hsome.
    now rewrite set_nth_length, length_map, length_seq in Hsome. }
  apply (nth_error_nth _ _ 0) in Hi. rewrite <- Hi. clear Hi.
  destruct (Nat.eq_dec i (Z.to_nat num - 1)) as [->|Hne].
  - rewrite nth_set_nth_eq by (rewrite length_map, length_seq; lia).
    assert (Hk : Z.of_nat (Z.to_nat num - 1) = (num - 1)%Z) by lia.
    rewrite Hk.
    assert (Hpos : ~ inject_Z (num - 1) == 0).
    { intro Hz. unfold Qeq in Hz. simpl in Hz. lia. }
    field. exact Hpos.
  - rewrite nth_set_nth_neq by congruence.
    set (g := fun i0 : nat => _).
    rewrite (nth_indep _ 0 (g 0%nat)) by (rewrite length_map, length_seq; lia).
    rewrite map_nth, seq_nth by lia. unfold g. rewrite E1. simpl Nat.add.
    ring.
Qed.

Lemma linspace_monotone (b : Q) (num : Z) (l : list Q) :
  linspace 0 b num = Ok l -> (1 < num)%Z -> 0 <= b ->
  forall i j ti tj, (i <= j)%nat ->
    nth_error l i = Some ti -> nth_error l j = Some tj ->
    0 <= ti /\ ti <= tj.
Proof.
  intros Hl Hnum Hb i j ti tj Hij Hi Hj.
  rewrite (linspace_values 0 b num l Hl Hnum i ti Hi).
  rewrite (linspace_values 0 b num l Hl Hnum j tj Hj).
  assert (Hk : 0 < inject_Z (num - 1)).
  { change 0 with (inject_Z 0). rewrite <- Zlt_Qlt. lia. }
  assert (Hstep : 0 <= (b - 0) / inject_Z (num - 1)).
  { apply Qle_shift_div_l; [assumption|]. lra. }
  assert (H0i : 0 <= inject_Z (Z.of_nat i)).
  { change 0 with (inject_Z 0). rewrite <- Zle_Qle. lia. }
  assert (Hle : inject_Z (Z.of_nat i) <= inject_Z (Z.of_nat j)).
  { rewrite <- Zle_Qle. lia. }
  split.
  - rewrite Qplus_0_l. now apply Qmult_le_0_compat.
  - apply Qplus_le_compat; [apply Qle_refl|].
    now apply Qmult_le_compat_r.
Qed.

(** ** The discharge model *)

Lemma map2_length (f : Q -> Q -> Q) (xs ys : list Q) :
  length (map2 f xs ys) = Nat.min (length xs) (length ys).
Proof. unfold map2. now rewrite length_map, length_combine. Qed.

Lemma run_battery_simulation_ok (simulation : SimulationResult.t) :
  (0 <= SimulationResult.simulation_duration simulation)%Z ->
  exists time r,
    linspace 0 (inject_Z (SimulationResult.simulation_duration simulation))
             (SimulationResult.simulation_duration simulation * 6) = Ok time /\
    length time
    = Z.to_nat (SimulationResult.simulation_duration simulation * 6) /\
    run_battery_simulation simulation = Ok r /\
    SimulationResult.soc_data r
    = Some [("time"%string, time); ("soc"%string, soc_percent simulation time)] /\
    map (option_map (map fst)) (result_objects r)
    = [Some ["time"; "emf"]; Some ["time"; "voltage"];
       Some ["time"; "current"]; Some ["time"; "resistance"; "soc"];
       Some ["time"; "soc"]; Some ["time"; "temperature"]]%string /\
    (forall o, In o (result_objects r) ->
       exists series,
         o = Some series /\
         json_get "time" series = Some time /\
         Forall (fun kv => length (snd kv) = length time) series).
Proof.
  intro Hd.
  destruct (linspace_ok 0
              (inject_Z (SimulationResult.simulation_duration simulation))
              (SimulationResult.simulation_duration simulation * 6))
    as (time & Htime & Hlen); [lia|].
  exists time. unfold run_battery_simulation. rewrite Htime. cbn [bind].
  eexists. split; [reflexivity|]. split; [exact Hlen|].
  split; [reflexivity|]. split; [reflexivity|]. split; [reflexivity|].
  intros o Ho. unfold result_objects in Ho.
  cbn [SimulationResult.emf_data SimulationResult.terminal_voltage_data
       SimulationResult.current_data SimulationResult.resistance_data
       SimulationResult.soc_data SimulationResult.temperature_data In] in Ho.
  repeat (destruct Ho as [Ho|Ho];
          [subst o; eexists; split; [reflexivity|]; split; [reflexivity|];
           repeat constructor; cbn [snd];
           rewrite ?length_map, ?map2_length, ?length_map, ?map2_length,
             ?length_map, ?map2_length, ?length_map, ?Nat.min_id;
           reflexivity|]).
  contradiction.
Qed.

(** C5.  For valid parameters with duration [duration_minutes], every
    one of the six result objects carries the same time axis and all of
    its series (EMF, terminal voltage, current, internal resistance,
    SOC, temperature) have [duration_minutes * 6] entries. *)
Theorem six_series_aligned (simulation : SimulationResult.t) :
  valid_parameters simulation ->
  exists r time,
    run_battery_simulation simulation = Ok r /\
    length time
    = Z.to_nat (SimulationResult.simulation_duration simulation * 6) /\
    map (option_map (map fst)) (result_objects r)
    = [Some ["time"; "emf"]; Some ["time"; "voltage"];
       Some ["time"; "current"]; Some ["time"; "resistance"; "soc"];
       Some ["time"; "soc"]; Some ["time"; "temperature"]]%string /\
    (forall o, In o (result_objects r) ->
       exists series,
         o = Some series /\
         json_get "time" series = Some time /\
         Forall (fun kv =>
                   length (snd kv)
                   = Z.to_nat (SimulationResult.simulation_duration simulation * 6))
                series).
Proof.
  intros (_ & _ & _ & Hd).
  destruct (run_battery_simulation_ok simulation)
    as (time & r & _ & Hlen & Hrun & _ & Hkeys & Hall); [lia|].
  exists r, time. split; [exact Hrun|]. split; [exact Hlen|].
  split; [exact Hkeys|].
  intros o Ho. destruct (Hall o Ho) as (series & -> & Ht & Hf).
  exists series. split; [reflexivity|]. split; [exact Ht|].
  now rewrite <- Hlen.
Qed.

Lemma six_series_aligned_witness :
  valid_parameters demo_request /\
  exists (r : SimulationResult.t) (time : list Q),
    run_battery_simulation demo_request = Ok r /\
    length time = 360%nat /\
    SimulationResult.emf_data r <> None.
Proof.
  assert (Hv : valid_parameters demo_request).
  { unfold valid_parameters. cbn. repeat split; try lra. }
  split; [exact Hv|].
  destruct (six_series_aligned demo_request Hv)
    as (r & time & Hrun & Hlen & _ & Hall).
  exists r, time. split; [exact Hrun|]. split; [exact Hlen|].
  destruct (Hall (SimulationResult.emf_data r)) as (series & -> & _).
  - left. reflexivity.
  - discriminate.
Defined.

(** ** The SOC series *)


Lemma decay_linear (t : Q) : t / 60.0 * 0.2 / 5.0 == t * (1 # 1500).
Proof. field. Qed.







(** ** Parameter validation *)

(** C1, counterexample.  Requests with a non-positive load resistance,
    an initial SOC above 100 or a zero duration are computed, not
    rejected. *)
Lemma invalid_requests_are_computed :
  (SimulationResult.load_resistance (request (-1) 100 1) <= 0 /\
   exists r, run_battery_simulation (request (-1) 100 1) = Ok r /\
             Forall (fun o => o <> None) (result_objects r)) /\
  (~ SimulationResult.initial_soc (request 1 150 1) <= 100 /\
   exists r, run_battery_simulation (request 1 150 1) = Ok r /\
             Forall (fun o => o <> None) (result_objects r)) /\
  (~ (0 < SimulationResult.simulation_duration (request 1 100 0))%Z /\
   exists r, run_battery_simulation (request 1 100 0) = Ok r /\
             Forall (fun o => o <> None) (result_objects r)).
Proof.
  split; [|split].
  - split; [cbn; lra|].
    eexists. split; [vm_compute; reflexivity|].
    repeat constructor; discriminate.
  - split; [cbn; lra|].
    eexists. split; [vm_compute; reflexivity|].
    repeat constructor; discriminate.
  - split; [cbn; lia|].
    eexists. split; [vm_compute; reflexivity|].
    repeat constructor; discriminate.
Qed.

(** C1 (as the code has it).  Neither [run_battery_simulation] nor the
    constructor validates its parameters.  [run_battery_simulation]
    fails exactly when the duration is negative ([np.linspace] raises
    [ValueError] before any series is computed), and for every other
    request it stores all six result objects, whatever the load
    resistance and the initial SOC.  The constructor fails exactly when
    the current profile is empty ([IndexError] from [get_current(0.0)]). *)
Theorem parameters_are_not_validated :
  (forall simulation,
      (SimulationResult.simulation_duration simulation < 0)%Z ->
      run_battery_simulation simulation = Raise ValueError) /\
  (forall simulation,
      (0 <= SimulationResult.simulation_duration simulation)%Z ->
      exists r, run_battery_simulation simulation = Ok r /\
                Forall (fun o => o <> None) (result_objects r)) /\
  (forall p cb,
      SimulationParameters.current_profile p = [] ->
      __init__ p cb = Raise IndexError) /\
  (forall p cb,
      SimulationParameters.current_profile p <> [] ->
      exists s, __init__ p cb = Ok s).
Proof.
  split; [|split; [|split]].
  - intros simulation Hd. unfold run_battery_simulation.
    rewrite linspace_negative by lia. reflexivity.
  - intros simulation Hd.
    destruct (run_battery_simulation_ok simulation Hd)
      as (time & r & _ & _ & Hrun & _ & _ & Hall).
    exists r. split; [exact Hrun|].
    apply Forall_forall. intros o Ho.
    destruct (Hall o Ho) as (series & -> & _). discriminate.
  - intros p cb. apply init_empty_profile.
  - intros p cb Hne. destruct (init_ok p cb Hne) as (s & Hs & _).
    now exists s.
Qed.

(** ** Cell volume *)

Lemma PI_above_3_14159 : (3.14159 < PI)%R.
Proof.
  pose proof (PI_2_3_7_ineq 2) as [H _].
  unfold sum_f_R0, tg_alt, PI_2_3_7_tg, Ratan_seq in H.
  simpl in H. lra.
Qed.

(** C8, counterexample.  The volume computed for the default
    cylindrical cell (diameter 18, length 65) is not
    pi * (18 / 2)^2 * 65 / 1000. *)
Lemma cylindrical_volume_is_not_pi :
  BatteryCell.form_factor demo_cell = "cylindrical"%string /\
  BatteryCell.diameter demo_cell = Some 18.0 /\
  BatteryCell.length demo_cell = 65.0 /\
  exists v,
    BatteryCell.calculate_volume demo_cell = Ok v /\
    Q2R v <> (PI * (Q2R 18.0 / 2) ^ 2 * Q2R 65.0 / 1000)%R.
Proof.
  split; [reflexivity|]. split; [reflexivity|]. split; [reflexivity|].
  eexists. split; [reflexivity|].
  pose proof PI_above_3_14159 as Hpi.
  unfold Q2R. simpl. intro E. lra.
Qed.

(** C8 (as the code has it).  Every successful [save] recomputes the
    volume from the geometry, whatever volume was stored before, and
    hands the row with the recomputed volume to the database.  For a
    cylindrical cell the volume is 3.14159 * (diameter / 2)^2 * length /
    1000, with pi cut to five decimals; for a prismatic or pouch cell it
    is length * width * height / 1000. *)
Theorem volume_recomputed_on_save (c : BatteryCell.t) (written : list BatteryCell.t) :
  (forall d,
      BatteryCell.form_factor c = "cylindrical"%string ->
      BatteryCell.diameter c = Some d ->
      BatteryCell.calculate_volume c
      = Ok (3.14159 * (d / 2) ^ 2 * BatteryCell.length c / 1000)) /\
  (forall w h,
      BatteryCell.form_factor c = "prismatic"%string \/
      BatteryCell.form_factor c = "pouch"%string ->
      BatteryCell.width c = Some w ->
      BatteryCell.height c = Some h ->
      BatteryCell.calculate_volume c
      = Ok (BatteryCell.length c * w * h / 1000)) /\
  (forall old,
      BatteryCell.calculate_volume (BatteryCell.set_volume old c)
      = BatteryCell.calculate_volume c) /\
  (forall v,
      BatteryCell.calculate_volume c = Ok v ->
      BatteryCell.save c written
      = Ok (BatteryCell.set_volume (Some v) c,
            written ++ [BatteryCell.set_volume (Some v) c])) /\
  (forall c' written',
      BatteryCell.save c written = Ok (c', written') ->
      BatteryCell.calculate_volume c = Ok (match BatteryCell.volume c' with
                                           | Some v => v
                                           | None => 0
                                           end) /\
      BatteryCell.volume c' <> None /\
      written' = written ++ [c']).
Proof.
  split; [|split; [|split; [|split]]].
  - intros d Hf Hd. unfold BatteryCell.calculate_volume.
    rewrite Hf, Hd. reflexivity.
  - intros w h Hf Hw Hh. unfold BatteryCell.calculate_volume.
    rewrite Hw, Hh. destruct Hf as [-> | ->]; reflexivity.
  - intro old. reflexivity.
  - intros v Hv. unfold BatteryCell.save. rewrite Hv. reflexivity.
  - intros c' written'. unfold BatteryCell.save.
    destruct (BatteryCell.calculate_volume c) as [v|e]; [|discriminate].
    simpl. intro H. injection H as <- <-. simpl.
    split; [reflexivity|]. split; [discriminate|reflexivity].
Qed.

(* ================================================================== *)
(** * Further properties *)

(** ** Heat generation *)

Lemma hot_core_cells (v : Q) (i j : nat) :
  (i < nr)%nat -> (j < nz)%nat ->
  get2 (fold_left (fun a i0 => set_row a i0 (repeat v nz))
                  (seq 0 (nr / 3)) (np_zeros nr nz)) i j
  = if (i <? nr / 3)%nat then v else 0.
Proof.
  unfold nr, nz. intros Hi Hj.
  do 10 (destruct i as [|i];
         [do 20 (destruct j as [|j]; [reflexivity|]); lia|]).
  lia.
Qed.

(** X1.  On a cell with non-zero radius and height,
    [calculate_heat_generation] returns an [nr] by [nz] array that holds
    the Joule heat [current^2 * resistance] divided by the core volume
    [pi * (radius / 3)^2 * height] in the radial rows [0 .. nr / 3 - 1]
    and zero in every other row. *)
Theorem heat_generation_hot_core (s : Simulator) (c : Q) :
  ~ radius s == 0 -> ~ height s == 0 ->
  exists q,
    calculate_heat_generation s (Some c) = Ok q /\
    shape q nr nz /\
    forall i j, (i < nr)%nat -> (j < nz)%nat ->
      get2 q i j
      = if (i <? nr / 3)%nat
        then c ^ 2 * resistance s / (math_pi * (radius s / 3) ^ 2 * height s)
        else 0.
Proof.
  intros Hr Hh. unfold calculate_heat_generation.
  destruct (heat_generation_ok s c Hr Hh) as [q Hq].
  unfold calculate_heat_generation in Hq.
  destruct (pydiv (c ^ 2 * resistance s)
                  (math_pi * (radius s / 3) ^ 2 * height s)) as [v|e] eqn:Ev;
    [|discriminate].
  unfold pydiv in Ev.
  destruct (Qeq_bool (math_pi * (radius s / 3) ^ 2 * height s) 0);
    [discriminate|]. injection Ev as <-.
  eexists. split; [reflexivity|]. split.
  - split; [reflexivity|repeat constructor].
  - intros i j Hi Hj. apply hot_core_cells; assumption.
Qed.

(** ** The finite-difference step, node by node *)

Lemma get2_set2 (a : field) (i j i' j' : nat) (v : Q) :
  (i < length a)%nat -> (j < length (row a i))%nat ->
  get2 (set2 a i j v) i' j'
  = if (i' =? i)%nat && (j' =? j)%nat then v else get2 a i' j'.
Proof.
  intros Hi Hj. unfold get2, set2, row.
  destruct (Nat.eqb_spec i' i) as [->|Hne]; simpl.
  - rewrite nth_set_nth_eq by assumption.
    destruct (Nat.eqb_spec j' j) as [->|Hne'].
    + now apply nth_set_nth_eq.
    + apply nth_set_nth_neq. congruence.
  - rewrite nth_set_nth_neq by congruence. reflexivity.
Qed.

Lemma fold_set2_row (f : nat -> Q) (i rows cols : nat) (js : list nat) :
  (i < rows)%nat -> Forall (fun j => (j < cols)%nat) js ->
  forall a, shape a rows cols ->
    shape (fold_left (fun a' j => set2 a' i j (f j)) js a) rows cols /\
    forall i' j',
      get2 (fold_left (fun a' j => set2 a' i j (f j)) js a) i' j'
      = if (i' =? i)%nat && existsb (Nat.eqb j') js then f j'
        else get2 a i' j'.
Proof.
  intros Hi Hjs. induction Hjs as [|j js Hj Hjs IH]; intros a Ha.
  - simpl. split; [assumption|]. intros i' j'. now rewrite andb_false_r.
  - simpl fold_left.
    destruct (IH (set2 a i j (f j)) (shape_set2 a rows cols i j (f j) Ha))
      as [Hs Hv].
    split; [exact Hs|]. intros i' j'. rewrite Hv.
    rewrite get2_set2.
    + simpl existsb.
      destruct (i' =? i)%nat; simpl; [|reflexivity].
      destruct (Nat.eqb_spec j' j) as [->|Hne]; simpl.
      * now destruct (existsb (Nat.eqb j) js).
      * reflexivity.
    + destruct Ha. lia.
    + rewrite (shape_row a rows cols i Ha Hi). exact Hj.
Qed.

Lemma fold_set2_grid (f : nat -> nat -> Q) (rows cols : nat) (ks js : list nat) :
  Forall (fun i => (i < rows)%nat) ks -> Forall (fun j => (j < cols)%nat) js ->
  forall a, shape a rows cols ->
    shape (fold_left
             (fun a0 i => fold_left (fun a' j => set2 a' i j (f i j)) js a0)
             ks a) rows cols /\
    forall i' j',
      get2 (fold_left
              (fun a0 i => fold_left (fun a' j => set2 a' i j (f i j)) js a0)
              ks a) i' j'
      = if existsb (Nat.eqb i') ks && existsb (Nat.eqb j') js then f i' j'
        else get2 a i' j'.
Proof.
  intros Hks Hjs. induction Hks as [|i ks Hi Hks IH]; intros a Ha.
  - simpl. split; [assumption|reflexivity].
  - simpl fold_left.
    destruct (fold_set2_row (f i) i rows cols js Hi Hjs a Ha) as [Hs Hv].
    destruct (IH _ Hs) as [Hs' Hv'].
    split; [exact Hs'|]. intros i' j'. rewrite Hv', Hv. simpl existsb.
    destruct (Nat.eqb_spec i' i) as [->|Hne]; simpl.
    + destruct (existsb (Nat.eqb i) ks); simpl;
        destruct (existsb (Nat.eqb j') js); reflexivity.
    + reflexivity.
Qed.

Lemma existsb_seq (x a n : nat) :
  existsb (Nat.eqb x) (seq a n) = ((a <=? x)%nat && (x <? a + n)%nat).
Proof.
  revert a. induction n as [|n IH]; intro a; simpl.
  - destruct (Nat.leb_spec a x), (Nat.ltb_spec x (a + 0)); simpl;
      try reflexivity; lia.
  - rewrite IH.
    destruct (Nat.eqb_spec x a), (Nat.leb_spec (S a) x),
      (Nat.ltb_spec x (S a + n)), (Nat.leb_spec a x),
      (Nat.ltb_spec x (a + S n)); simpl; try reflexivity; lia.
Qed.

Lemma Forall_seq_lt (a n bound : nat) :
  (a + n <= bound)%nat -> Forall (fun i => (i < bound)%nat) (seq a n).
Proof.
  intro H. apply Forall_forall. intros x Hx. apply in_seq in Hx. lia.
Qed.

Lemma nth_map_zero (l : list Q) (j : nat) : nth j (map (fun _ : Q => 0) l) 0 = 0.
Proof.
  revert j. induction l as [|x tl IH]; intros [|j]; simpl; auto.
Qed.

Lemma get2_zeros_like (a : field) (i j : nat) : get2 (np_zeros_like a) i j = 0.
Proof.
  unfold get2, row, np_zeros_like. revert i.
  induction a as [|r tl IH]; intros [|i]; simpl; auto using nth_map_zero;
    now destruct j.
Qed.

(** The loops store [interior_value] at the interior nodes and leave
    zero elsewhere. *)
Lemma interior_update_value (s : Simulator) (T_prev q : field) (alpha : Q) :
  shape (T s) nr nz ->
  shape (interior_update s T_prev q alpha (np_zeros_like (T s))) nr nz /\
  forall i j,
    get2 (interior_update s T_prev q alpha (np_zeros_like (T s))) i j
    = if interior i j then interior_value s T_prev q alpha i j else 0.
Proof.
  intro Hs.
  destruct (fold_set2_grid (interior_value s T_prev q alpha) nr nz
              (seq 1 (nr - 2)) (seq 1 (nz - 2))
              (Forall_seq_lt 1 (nr - 2) nr ltac:(unfold nr; lia))
              (Forall_seq_lt 1 (nz - 2) nz ltac:(unfold nz; lia))
              (np_zeros_like (T s)) (shape_zeros_like (T s) nr nz Hs))
    as [Hshape Hval].
  split; [exact Hshape|].
  intros i j. unfold interior_update.
  change (fun (a : field) (i0 : nat) =>
            let r := nth i0 (mesh_r s) 0 in
            let dr := nth 1 (mesh_r s) 0 - nth 0 (mesh_r s) 0 in
            fold_left (fun a' j0 => interior_node s T_prev q alpha r dr a' i0 j0)
                      (seq 1 (nz - 2)) a)
    with (fun (a : field) (i0 : nat) =>
            fold_left (fun a' j0 =>
                         set2 a' i0 j0 (interior_value s T_prev q alpha i0 j0))
                      (seq 1 (nz - 2)) a).
  rewrite Hval, !existsb_seq, get2_zeros_like.
  unfold interior.
  replace (i <? 1 + (nr - 2))%nat with (i <=? nr - 2)%nat
    by (unfold nr; destruct (Nat.leb_spec i (10 - 2)),
          (Nat.ltb_spec i (1 + (10 - 2))); try reflexivity; lia).
  replace (j <? 1 + (nz - 2))%nat with (j <=? nz - 2)%nat
    by (unfold nz; destruct (Nat.leb_spec j (20 - 2)),
          (Nat.ltb_spec j (1 + (20 - 2))); try reflexivity; lia).
  now rewrite andb_assoc.
Qed.

Lemma nth_map_in_range (f : Q -> Q) (l : list Q) (j : nat) :
  (j < length l)%nat -> nth j (map f l) 0 = f (nth j l 0).
Proof.
  intro Hj. rewrite (nth_indep _ 0 (f 0)) by (now rewrite length_map).
  apply map_nth.
Qed.

Lemma nth_set_nth (i j : nat) (v : Q) (xs : list Q) :
  (i < length xs)%nat ->
  nth j (set_nth i v xs) 0 = if (j =? i)%nat then v else nth j xs 0.
Proof.
  intro Hi. destruct (Nat.eqb_spec j i) as [->|Hne].
  - now apply nth_set_nth_eq.
  - apply nth_set_nth_neq. congruence.
Qed.

(** The field after all four boundary assignments, node by node. *)
Lemma apply_boundaries_value (s : Simulator) (a : field) (i j : nat) :
  shape a nr nz -> (i < nr)%nat -> (j < nz)%nat ->
  get2 (apply_boundaries s a) i j
  = if (j =? 0)%nat then convective s (mesh_dz s) 10.0 (after_rows s a i 1)
    else if (j =? nz - 1)%nat
         then convective s (mesh_dz s) 10.0 (after_rows s a i (nz - 2))
         else after_rows s a i j.
Proof.
  intros Ha Hi Hj. unfold apply_boundaries. cbv zeta.
  rewrite !set_col_rowwise.
  set (T1 := set_row a 0 (row a 1)).
  assert (HT1 : shape T1 nr nz).
  { apply shape_set_row; [assumption|].
    apply (shape_row a nr nz 1 Ha). unfold nr. lia. }
  assert (Hn1 : nrows T1 = nr) by (destruct HT1 as [H _]; exact H).
  rewrite Hn1.
  set (T2 := set_row T1 (nr - 1) _).
  assert (HT2 : shape T2 nr nz).
  { apply shape_set_row; [assumption|]. rewrite length_map.
    apply (shape_row T1 nr nz (nr - 2) HT1). unfold nr. lia. }
  assert (Hrow : forall i0, (i0 < nr)%nat -> length (row T2 i0) = nz)
    by (intros i0 Hi0; now apply (shape_row T2 nr nz i0 HT2)).
  assert (Hlen2 : length T2 = nr) by (destruct HT2 as [H _]; exact H).
  (* the rows of [T2] in terms of [a] *)
  assert (Hval : forall j0, (j0 < nz)%nat -> get2 T2 i j0 = after_rows s a i j0).
  { intros j0 Hj0. unfold after_rows, get2, T2, set_row, row.
    destruct (Nat.eqb_spec i (nr - 1)) as [->|Hne].
    - rewrite nth_set_nth_eq by (destruct HT1; lia).
      rewrite nth_map_in_range.
      + unfold T1, set_row. rewrite nth_set_nth_neq by (unfold nr; lia).
        reflexivity.
      + fold (row T1 (nr - 2)).
        rewrite (shape_row T1 nr nz (nr - 2) HT1); [assumption|unfold nr; lia].
    - rewrite nth_set_nth_neq by congruence.
      unfold T1, set_row.
      destruct (Nat.eqb_spec i 0) as [->|Hne0].
      + rewrite nth_set_nth_eq by (destruct Ha; unfold nr in *; lia).
        reflexivity.
      + rewrite nth_set_nth_neq by congruence. reflexivity. }
  unfold ncols. rewrite !row_map by (rewrite ?length_map; unfold nr in *; lia).
  rewrite set_nth_length, (Hrow 0%nat) by (unfold nr; lia).
  unfold get2.
  rewrite !row_map by (rewrite ?length_map; lia).
  rewrite nth_set_nth by (rewrite set_nth_length, Hrow; unfold nz; lia).
  rewrite !nth_set_nth by (rewrite Hrow; unfold nz; lia).
  fold (get2 T2 i 1). fold (get2 T2 i (nz - 2)). fold (get2 T2 i j).
  rewrite !Hval by (unfold nz in *; lia).
  destruct (Nat.eqb_spec j (nz - 1)) as [->|Hlast].
  - replace (nz - 1 =? 0)%nat with false by reflexivity. 
    replace (nz - 2 =? 0)%nat with false by reflexivity. reflexivity.
  - destruct (Nat.eqb_spec j 0) as [->|Hfirst]; reflexivity.
Qed.


(** What a successful [update_temperature] computed. *)
Lemma update_temperature_unfold (s s' : Simulator) :
  update_temperature s = Ok s' ->
  exists q,
    calculate_heat_generation s (current s) = Ok q /\
    ~ rho s * cp s == 0 /\
    s' = set_T (apply_boundaries s
                  (interior_update s (T s) q (k s / (rho s * cp s))
                     (np_zeros_like (T s)))) s.
Proof.
  unfold update_temperature.
  destruct (calculate_heat_generation s (current s)) as [q|e]; [|discriminate].
  cbn [bind]. unfold pydiv.
  destruct (Qeq_bool (rho s * cp s) 0) eqn:E; [discriminate|].
  cbn [bind]. intro H. injection H as <-.
  exists q. split; [reflexivity|]. split; [|reflexivity].
  intro Hz. apply Qeq_bool_iff in Hz. congruence.
Qed.


(** X3.  After a successful [update_temperature] on an [nr] by [nz]
    field, every interior node holds one forward-Euler step computed
    from the previous field alone: neighbours already updated in the
    same call are never read. *)
Theorem update_temperature_interior (s s' : Simulator) :
  shape (T s) nr nz ->
  update_temperature s = Ok s' ->
  exists q,
    calculate_heat_generation s (current s) = Ok q /\
    forall i j, interior i j = true ->
      get2 (T s') i j
      = interior_value s (T s) q (k s / (rho s * cp s)) i j.
Proof.
  intros Hs Hupd.
  destruct (update_temperature_unfold s s' Hupd) as (q & Hq & _ & ->).
  exists q. split; [exact Hq|].
  intros i j Hij. cbn [T set_T].
  destruct (interior_update_value s (T s) q (k s / (rho s * cp s)) Hs)
    as [Hshape Hval].
  unfold interior in Hij.
  apply andb_true_iff in Hij. destruct Hij as [Hij Hj2].
  apply andb_true_iff in Hij. destruct Hij as [Hij Hj1].
  apply andb_true_iff in Hij. destruct Hij as [Hi1 Hi2].
  apply Nat.leb_le in Hi1, Hi2, Hj1, Hj2. unfold nr, nz in *.
  rewrite apply_boundaries_value by (try assumption; unfold nr, nz; lia).
  unfold after_rows.
  replace (j =? 0)%nat with false by (symmetry; apply Nat.eqb_neq; lia).
  replace (j =? nz - 1)%nat with false
    by (symmetry; apply Nat.eqb_neq; unfold nz; lia).
  replace (i =? nr - 1)%nat with false
    by (symmetry; apply Nat.eqb_neq; unfold nr; lia).
  replace (i =? 0)%nat with false by (symmetry; apply Nat.eqb_neq; lia).
  rewrite Hval. unfold interior, nr, nz.
  apply Nat.leb_le in Hi1, Hi2, Hj1, Hj2.
  now rewrite Hi1, Hi2, Hj1, Hj2.
Qed.






Lemma heat_generation_hot_core_witness :
  exists s0,
    __init__ demo_parameters true = Ok s0 /\
    ~ radius s0 == 0 /\ ~ height s0 == 0 /\
    exists q, calculate_heat_generation s0 (Some 2.0) = Ok q /\ shape q nr nz.
Proof.
  eexists. split; [vm_compute; reflexivity|].
  match goal with
  | |- ~ radius ?s0 == 0 /\ _ =>
      assert (Hr : ~ radius s0 == 0) by (intro H; vm_compute in H; discriminate H);
      assert (Hh : ~ height s0 == 0) by (intro H; vm_compute in H; discriminate H);
      destruct (heat_generation_hot_core s0 2.0 Hr Hh) as (q & Hq & Hshape & _)
  end.
  split; [exact Hr|]. split; [exact Hh|].
  exists q. split; [exact Hq|exact Hshape].
Defined.

Lemma update_temperature_interior_witness :
  exists s0 s1,
    __init__ demo_parameters true = Ok s0 /\
    update_temperature s0 = Ok s1 /\
    exists q,
      calculate_heat_generation s0 (current s0) = Ok q /\
      get2 (T s1) 5 10
      = interior_value s0 (T s0) q (k s0 / (rho s0 * cp s0)) 5 10.
Proof.
  eexists. eexists.
  split; [vm_compute; reflexivity|].
  match goal with
  | |- update_temperature ?s0 = Ok ?s1 /\ _ =>
      assert (Hs : shape (T s0) nr nz)
        by (split; [reflexivity|repeat constructor]);
      assert (Hu : update_temperature s0 = Ok s1)
        by (vm_compute; reflexivity);
      destruct (update_temperature_interior s0 s1 Hs Hu) as (q & Hq & Hval)
  end.
  split; [exact Hu|]. exists q. split; [exact Hq|].
  apply Hval. reflexivity.
Defined.



(** ** Snapshots *)

Lemma fold_Qmin_lower (xs : list Q) (x y : Q) :
  In y (x :: xs) -> fold_left Qmin xs x <= y.
Proof.
  revert x. induction xs as [|z tl IH]; intros x Hy.
  - destruct Hy as [->|[]]. apply Qle_refl.
  - simpl fold_left. destruct Hy as [->|[->|Hy]].
    + eapply Qle_trans; [apply fold_Qmin_le|apply Q.le_min_l].
    + eapply Qle_trans; [apply fold_Qmin_le|apply Q.le_min_r].
    + apply IH. now right.
Qed.

Lemma fold_Qmax_upper (xs : list Q) (x y : Q) :
  In y (x :: xs) -> y <= fold_left Qmax xs x.
Proof.
  revert x. induction xs as [|z tl IH]; intros x Hy.
  - destruct Hy as [->|[]]. apply Qle_refl.
  - simpl fold_left. destruct Hy as [->|[->|Hy]].
    + eapply Qle_trans; [apply Q.le_max_l|apply fold_Qmax_ge].
    + eapply Qle_trans; [apply Q.le_max_r|apply fold_Qmax_ge].
    + apply IH. now right.
Qed.

Lemma np_min_max_bound (a : field) (i j : nat) :
  (i < length a)%nat -> (j < length (row a i))%nat ->
  np_min a <= get2 a i j /\ get2 a i j <= np_max a.
Proof.
  intros Hi Hj.
  assert (Hin : In (get2 a i j) (concat a)).
  { apply in_concat. exists (row a i). split.
    - unfold row. now apply nth_In.
    - unfold get2. now apply nth_In. }
  unfold np_min, np_max.
  destruct (concat a) as [|x tl]; [contradiction|].
  split; [now apply fold_Qmin_lower|now apply fold_Qmax_upper].
Qed.

Lemma probes_within_bounds (s : Simulator) :
  shape (T s) nr nz -> probes_bounded (get_temperature_data s).
Proof.
  intro Hs. unfold probes_bounded.
  cbn [get_temperature_data min_temp max_temp center_temp
       surface_temp top_temp bottom_temp].
  assert (Hlen : length (T s) = nr) by (destruct Hs; assumption).
  assert (Hrow : forall i, (i < nr)%nat -> length (row (T s) i) = nz)
    by (intros i Hi; now apply (shape_row (T s) nr nz i Hs)).
  unfold nrows, ncols. rewrite Hlen, (Hrow 0%nat) by (unfold nr; lia).
  assert (H : forall i j, (i < nr)%nat -> (j < nz)%nat ->
            np_min (T s) <= get2 (T s) i j /\ get2 (T s) i j <= np_max (T s)).
  { intros i j Hi Hj. apply np_min_max_bound; [lia|]. rewrite Hrow; lia. }
  destruct (H 0%nat (nz / 2)%nat) as [H1 H2]; [unfold nr; lia|unfold nz; simpl; lia|].
  destruct (H (nr - 1)%nat (nz / 2)%nat) as [H3 H4];
    [unfold nr; lia|unfold nz; simpl; lia|].
  destruct (H (nr / 2)%nat (nz - 1)%nat) as [H5 H6];
    [unfold nr; simpl; lia|unfold nz; lia|].
  destruct (H (nr / 2)%nat 0%nat) as [H7 H8];
    [unfold nr; simpl; lia|unfold nz; lia|].
  repeat split; assumption.
Qed.

(** X6.  On an [nr] by [nz] field the dictionary built by
    [get_temperature_data] has its four probe temperatures (center,
    surface, top, bottom) between [min_temp] and [max_temp]. *)
Theorem snapshot_probes_bounded (s : Simulator) :
  shape (T s) nr nz ->
  probes_bounded (get_temperature_data s) /\
  temp_field (get_temperature_data s) = T s /\
  snap_time (get_temperature_data s) = current_time s.
Proof.
  intro Hs. split; [now apply probes_within_bounds|]. split; reflexivity.
Qed.

(** ** The engine under arbitrary interleavings *)

(** What one execution of lines 168-183 does to the simulator. *)
Lemma loop_body_effect (s : Simulator) :
  config_of (fst (loop_body s)) = config_of s /\
  running (fst (loop_body s)) = running s /\
  paused (fst (loop_body s)) = paused s /\
  (shape (T s) nr nz -> shape (T (fst (loop_body s))) nr nz) /\
  match snd (loop_body s) with
  | Ok (Some d) =>
      callback s = true /\
      d = get_temperature_data (fst (loop_body s)) /\
      current_time (fst (loop_body s)) = current_time s + dt s
  | Ok None =>
      callback s = false /\
      current_time (fst (loop_body s)) = current_time s + dt s
  | Raise _ =>
      current_time (fst (loop_body s)) = current_time s /\
      T (fst (loop_body s)) = T s
  end.
Proof.
  destruct (loop_body_flags s) as (Hr & Hp & Hc).
  split; [exact Hc|]. split; [exact Hr|]. split; [exact Hp|].
  unfold loop_body.
  destruct (get_current (current_profile s) (current_time s)) as [c|x];
    [|cbn [fst snd]; split; [auto|split; reflexivity]].
  destruct (update_temperature (set_current c s)) as [s2|x] eqn:E;
    [|cbn [fst snd]; split; [auto|split; reflexivity]].
  destruct (update_temperature_result _ _ E) as (a & _ & Ha & Es2).
  destruct (update_temperature_config _ _ E) as (Hcfg & _ & _ & Ht & _).
  assert (Hcb : callback (set_current_time (current_time s2 + dt s2) s2)
                = callback s).
  { destruct (config_fields _ _ Hcfg) as (H & _). exact H. }
  assert (Hdt : dt s2 = dt s).
  { destruct (config_fields _ _ Hcfg) as (_ & _ & _ & _ & _ & H & _). exact H. }
  assert (Hshape : shape (T s) nr nz -> shape (T s2) nr nz).
  { intro Hs. rewrite Es2. cbn [T set_T].
    apply shape_apply_boundaries; [unfold nr; lia|]. now apply Ha. }
  rewrite Hcb.
  destruct (callback s); cbn [fst snd]; (split; [exact Hshape|]).
  - split; [reflexivity|]. split; [reflexivity|].
    cbn [current_time set_current_time]. rewrite Hdt. f_equal. exact Ht.
  - split; [reflexivity|].
    cbn [current_time set_current_time]. rewrite Hdt. f_equal. exact Ht.
Qed.

Lemma exec_config (ev : event) (e : engine) :
  config_of (sim (exec ev e)) = config_of (sim e).
Proof.
  destruct e as [s pos log]. destruct ev; try reflexivity.
  cbn [exec]. unfold run_simulation_step. cbn [at_line sim delivered].
  destruct pos; try reflexivity.
  - destruct (running s && Qlt_bool (current_time s) (max_time s)); reflexivity.
  - destruct (negb (paused s)); reflexivity.
  - destruct (loop_body_effect s) as (Hc & _).
    destruct (loop_body s) as [s' [[d|]|x]]; exact Hc.
Qed.

Lemma run_config (evs : list event) (e : engine) :
  config_of (sim (run evs e)) = config_of (sim e).
Proof.
  revert e. induction evs as [|ev tl IH]; intro e; [reflexivity|].
  change (run (ev :: tl) e) with (run tl (exec ev e)).
  now rewrite IH, exec_config.
Qed.



Lemma StronglySorted_snoc {A : Type} (R : A -> A -> Prop) (l : list A) (y : A) :
  StronglySorted R l -> Forall (fun x => R x y) l -> StronglySorted R (l ++ [y]).
Proof.
  induction 1 as [|x l Hl IH Hx]; intro Hy; simpl.
  - repeat constructor.
  - inversion Hy as [|? ? Hxy Hly]; subst. constructor.
    + now apply IH.
    + apply Forall_app. split; [assumption|]. now constructor.
Qed.

Ltac timeline_cases :=
  repeat split; try assumption;
  try (intros [H|H]; discriminate H); try (intros _; assumption).

Lemma exec_timeline (t0 dt0 mx : Q) (ev : event) (e : engine) :
  0 < dt0 -> dt (sim e) = dt0 -> max_time (sim e) = mx ->
  timeline t0 dt0 mx e -> timeline t0 dt0 mx (exec ev e).
Proof.
  intros Hpos Hdt Hmx (Ht0 & Hall & Hsorted & Hbelow).
  destruct e as [s pos log]. cbn [sim at_line delivered] in *.
  destruct ev; try (repeat split; assumption).
  cbn [exec]. unfold run_simulation_step. cbn [at_line sim delivered].
  destruct pos.
  - timeline_cases.
  - destruct (running s && Qlt_bool (current_time s) (max_time s)) eqn:E.
    + apply andb_true_iff in E. destruct E as [_ E].
      apply Qlt_bool_iff in E. rewrite Hmx in E.
      timeline_cases.
    + timeline_cases.
  - assert (Hlt : current_time s < mx) by (apply Hbelow; now left).
    destruct (negb (paused s)); timeline_cases.
  - assert (Hlt : current_time s < mx) by (apply Hbelow; now right).
    destruct (loop_body_effect s) as (_ & _ & _ & _ & Hres).
    destruct (loop_body s) as [s' [[d|]|x]];
      cbn [fst snd sim delivered at_line] in *;
      unfold timeline; cbn [sim delivered at_line].
    + destruct Hres as (_ & -> & Htime). rewrite Hdt in Htime.
      assert (Hsnap : snap_time (get_temperature_data s') = current_time s')
        by reflexivity.
      repeat split.
      * rewrite Htime. lra.
      * apply Forall_app. split.
        -- eapply Forall_impl; [|exact Hall]. cbv beta.
           intros a (H1 & H2 & H3). rewrite Htime. repeat split; lra.
        -- constructor; [|constructor].
           rewrite Hsnap, Htime. repeat split; lra.
      * apply StronglySorted_snoc; [assumption|].
        eapply Forall_impl; [|exact Hall]. cbv beta.
        intros a (H1 & H2 & H3). unfold earlier. rewrite Hsnap, Htime. lra.
      * intros [H|H]; discriminate H.
    + destruct Hres as (_ & Htime). rewrite Hdt in Htime.
      repeat split.
      * rewrite Htime. lra.
      * eapply Forall_impl; [|exact Hall]. cbv beta.
        intros a (H1 & H2 & H3). rewrite Htime. repeat split; lra.
      * assumption.
      * intros [H|H]; discriminate H.
    + destruct Hres as (Htime & _).
      repeat split.
      * rewrite Htime. assumption.
      * eapply Forall_impl; [|exact Hall]. cbv beta.
        intros a (H1 & H2 & H3). rewrite Htime. repeat split; assumption.
      * assumption.
      * intros [H|H]; discriminate H.
  - timeline_cases.
  - timeline_cases.
  - timeline_cases.
Qed.

Lemma run_timeline (t0 dt0 mx : Q) (evs : list event) (e : engine) :
  0 < dt0 -> dt (sim e) = dt0 -> max_time (sim e) = mx ->
  timeline t0 dt0 mx e -> timeline t0 dt0 mx (run evs e).
Proof.
  intros Hpos. revert e.
  induction evs as [|ev tl IH]; intros e Hdt Hmx He; [exact He|].
  change (run (ev :: tl) e) with (run tl (exec ev e)).
  pose proof (exec_config ev e) as Hcfg.
  destruct (config_fields _ _ Hcfg) as (_ & _ & _ & _ & _ & Hd & Hm & _).
  apply IH; [congruence|congruence|].
  now apply exec_timeline.
Qed.

(** X8.  With a positive time step, under every interleaving of thread
    steps and commands after [start], the dictionaries are delivered in
    strictly increasing order of simulated time, and each delivered time
    is later than the starting time, at most the simulator's current
    time, and below [max_time + dt]. *)
Theorem delivered_times_increase (s : Simulator) (evs : list event) :
  0 < dt s ->
  StronglySorted earlier (delivered (run evs (start s))) /\
  Forall (fun d =>
            current_time s < snap_time d /\
            snap_time d <= current_time (sim (run evs (start s))) /\
            snap_time d < max_time s + dt s)
         (delivered (run evs (start s))).
Proof.
  intro Hpos.
  assert (H0 : timeline (current_time s) (dt s) (max_time s) (start s)).
  { unfold timeline, start. cbn [sim at_line delivered].
    repeat split; try constructor. - apply Qle_refl. - intros [H|H]; discriminate H. }
  destruct (run_timeline (current_time s) (dt s) (max_time s) evs (start s)
              Hpos eq_refl eq_refl H0) as (_ & Hall & Hsorted & _).
  split; assumption.
Qed.



Lemma snapshot_probes_bounded_witness :
  exists s0,
    __init__ demo_parameters true = Ok s0 /\
    probes_bounded (get_temperature_data s0).
Proof.
  destruct (init_ok demo_parameters true)
    as (s0 & Hinit & _ & _ & _ & _ & _ & _ & _ & _ & _ & _ & _ & Hshape);
    [discriminate|].
  exists s0. split; [exact Hinit|].
  exact (proj1 (snapshot_probes_bounded s0 Hshape)).
Defined.


Lemma delivered_times_increase_witness :
  exists s0,
    __init__ demo_parameters true = Ok s0 /\
    0 < dt s0 /\
    StronglySorted earlier
      (delivered (run [Thread; Thread; Thread; Thread; CmdPause; Thread]
                      (start s0))).
Proof.
  destruct (init_ok demo_parameters true)
    as (s0 & Hinit & _ & _ & _ & _ & _ & Hdt & _); [discriminate|].
  exists s0. split; [exact Hinit|].
  assert (Hpos : 0 < dt s0) by (rewrite Hdt; reflexivity).
  split; [exact Hpos|].
  exact (proj1 (delivered_times_increase s0 _ Hpos)).
Defined.

(** ** Pausing *)

Lemma exec_held (ev : event) (e : engine) :
  is_resume ev = false -> held e ->
  held (exec ev e) /\
  delivered (exec ev e) = delivered e /\
  T (sim (exec ev e)) = T (sim e) /\
  current_time (sim (exec ev e)) = current_time (sim e).
Proof.
  intros Hev [Hp Hpos]. destruct e as [s pos log].
  cbn [sim at_line delivered] in *. unfold held.
  destruct ev; try discriminate; cbn [exec sim at_line delivered];
    try (repeat split; assumption).
  unfold run_simulation_step. cbn [at_line sim delivered].
  destruct pos; try contradiction;
    try (repeat split; try assumption; discriminate).
  - destruct (running s && Qlt_bool (current_time s) (max_time s));
      repeat split; try assumption; discriminate.
  - rewrite Hp. cbn [negb]. repeat split; try assumption; discriminate.
Qed.

(** X10.  While the engine is paused and no [resume] arrives, thread
    steps and the other commands deliver nothing and leave the field and
    the simulated time untouched (for a thread that is not in the middle
    of an iteration when the pause takes hold). *)
Theorem paused_engine_makes_no_progress (e : engine) (evs : list event) :
  paused (sim e) = true -> at_line e <> AtBody ->
  forallb (fun ev => negb (is_resume ev)) evs = true ->
  delivered (run evs e) = delivered e /\
  T (sim (run evs e)) = T (sim e) /\
  current_time (sim (run evs e)) = current_time (sim e) /\
  paused (sim (run evs e)) = true.
Proof.
  intros Hp Hpos Hevs.
  assert (He : held e) by (split; assumption). clear Hp Hpos.
  revert e He. induction evs as [|ev tl IH]; intros e He.
  - destruct He. repeat split; assumption.
  - change (run (ev :: tl) e) with (run tl (exec ev e)).
    cbn [forallb] in Hevs. apply andb_true_iff in Hevs.
    destruct Hevs as [Hev Htl]. apply negb_true_iff in Hev.
    destruct (exec_held ev e Hev He) as (He' & Hd & HT & Ht).
    destruct (IH Htl _ He') as (Hd' & HT' & Ht' & Hp').
    repeat split; congruence.
Qed.

Lemma paused_engine_makes_no_progress_witness :
  exists s0,
    __init__ demo_parameters true = Ok s0 /\
    delivered (run [Thread; Thread; CmdStop; Thread; CmdPause; Thread]
                   (exec CmdPause (exec Thread (start s0))))
    = delivered (exec CmdPause (exec Thread (start s0))).
Proof.
  destruct (init_ok demo_parameters true) as (s0 & Hinit & _);
    [discriminate|].
  exists s0. split; [exact Hinit|].
  refine (proj1 (paused_engine_makes_no_progress
                   (exec CmdPause (exec Thread (start s0)))
                   [Thread; Thread; CmdStop; Thread; CmdPause; Thread]
                   eq_refl _ eq_refl)).
  discriminate.
Defined.

(** ** An uninterrupted run *)

Section Completion.

Variable s0 : Simulator.
Variable n : nat.

Hypothesis callback_given : callback s0 = true.
Hypothesis not_paused : paused s0 = false.
Hypothesis profile_given : current_profile s0 <> [].
Hypothesis radius_nonzero : ~ radius s0 == 0.
Hypothesis height_nonzero : ~ height s0 == 0.
Hypothesis rho_cp_nonzero : ~ rho s0 * cp s0 == 0.
Hypothesis before_horizon :
  forall m, (m < n)%nat ->
    current_time s0 + inject_Z (Z.of_nat m) * dt s0 < max_time s0.


Hypothesis horizon_reached :
  max_time s0 <= current_time s0 + inject_Z (Z.of_nat n) * dt s0.


End Completion.



(* ================================================================== *)
(** ** [get_current]: where the returned value comes from *)

Lemma dict_get_value (d : dict) (x v : Q) :
  dict_get d x = Ok v -> In v (map snd d).
Proof.
  unfold dict_get.
  destruct (find (fun kv => Qeq_bool (fst kv) x) d) as [kv|] eqn:E;
    [|discriminate].
  intro H. injection H as <-. apply find_some in E.
  apply in_map. tauto.
Qed.

Lemma dict_get_Qeq (d : dict) (x y : Q) :
  x == y -> dict_get d x = dict_get d y.
Proof.
  intro Hxy. unfold dict_get.
  assert (E : forall kv : Q * Q, Qeq_bool (fst kv) x = Qeq_bool (fst kv) y).
  { intro kv.
    destruct (Qeq_bool (fst kv) x) eqn:E1, (Qeq_bool (fst kv) y) eqn:E2;
      try reflexivity.
    - apply Qeq_bool_iff in E1. rewrite Hxy in E1.
      apply Qeq_bool_iff in E1. congruence.
    - apply Qeq_bool_iff in E2. rewrite <- Hxy in E2.
      apply Qeq_bool_iff in E2. congruence. }
  induction d as [|kv tl IH]; simpl; [reflexivity|].
  rewrite <- E. destruct (Qeq_bool (fst kv) x); [reflexivity|].
  apply IH.
Qed.

Lemma bracket_loop_spec (profile : dict) (times : list Q) (t v : Q)
  (range : list nat) :
  bracket_loop profile times t range = Ok (Some v) ->
  exists i t1 t2 i1 i2,
    In i range /\
    nth_error times i = Some t1 /\ nth_error times (i + 1) = Some t2 /\
    t1 <= t /\ t < t2 /\
    dict_get profile t1 = Ok i1 /\ dict_get profile t2 = Ok i2 /\
    v = i1 + (i2 - i1) * (t - t1) / (t2 - t1).
Proof.
  induction range as [|i rest IH]; simpl; [discriminate|].
  unfold index at 1.
  destruct (nth_error times i) as [t1|] eqn:E1; [|discriminate].
  cbn [bind]. unfold index at 1.
  destruct (nth_error times (i + 1)) as [t2|] eqn:E2; [|discriminate].
  cbn [bind].
  destruct (Qle_bool t1 t && Qlt_bool t t2) eqn:Hc.
  - apply andb_true_iff in Hc. destruct Hc as [Hlo Hup].
    apply Qle_bool_iff in Hlo. apply Qlt_bool_iff in Hup.
    destruct (dict_get profile t1) as [i1|] eqn:G1; [|discriminate].
    destruct (dict_get profile t2) as [i2|] eqn:G2; [|discriminate].
    cbn [bind]. unfold pydiv.
    destruct (Qeq_bool (t2 - t1) 0); [discriminate|].
    cbn [bind]. intro H. injection H as <-.
    exists i, t1, t2, i1, i2. repeat split; auto.
  - intro H. destruct (IH H) as (j & a & b & x & y & Hj & Hrest).
    exists j, a, b, x, y. split; [now right|exact Hrest].
Qed.

(** The three ways [get_current] produces a number. *)
Lemma get_current_spec (profile : dict) (t v : Q) :
  get_current profile t = Ok (Some v) ->
  (exists first tl,
      sorted (keys profile) = first :: tl /\ t <= first /\
      dict_get profile first = Ok v) \/
  (exists first tl,
      sorted (keys profile) = first :: tl /\ last tl first <= t /\
      dict_get profile (last tl first) = Ok v) \/
  (exists i t1 t2 i1 i2,
      nth_error (sorted (keys profile)) i = Some t1 /\
      nth_error (sorted (keys profile)) (i + 1) = Some t2 /\
      t1 <= t /\ t < t2 /\
      dict_get profile t1 = Ok i1 /\ dict_get profile t2 = Ok i2 /\
      v = i1 + (i2 - i1) * (t - t1) / (t2 - t1)).
Proof.
  unfold get_current.
  destruct (sorted (keys profile)) as [|first tl] eqn:Es; [discriminate|].
  cbn [index nth_error bind].
  destruct (Qle_bool t first) eqn:E1.
  - apply Qle_bool_iff in E1.
    destruct (dict_get profile first) as [x|] eqn:G; [|discriminate].
    cbn [bind]. intro H. injection H as <-.
    left. exists first, tl. auto.
  - cbn [index_last bind].
    destruct (Qle_bool (last tl first) t) eqn:E2.
    + apply Qle_bool_iff in E2.
      destruct (dict_get profile (last tl first)) as [x|] eqn:G; [|discriminate].
      cbn [bind]. intro H. injection H as <-.
      right. left. exists first, tl. auto.
    + intro H. apply bracket_loop_spec in H.
      destruct H as (i & t1 & t2 & i1 & i2 & _ & H).
      right. right. exists i, t1, t2, i1, i2. exact H.
Qed.

Lemma interpolation_between (i1 i2 t t1 t2 : Q) :
  t1 <= t -> t < t2 ->
  (i1 <= i1 + (i2 - i1) * (t - t1) / (t2 - t1) /\
   i1 + (i2 - i1) * (t - t1) / (t2 - t1) <= i2) \/
  (i2 <= i1 + (i2 - i1) * (t - t1) / (t2 - t1) /\
   i1 + (i2 - i1) * (t - t1) / (t2 - t1) <= i1).
Proof.
  intros Hlo Hup.
  assert (Hw : 0 < t2 - t1) by lra.
  set (lam := (t - t1) / (t2 - t1)).
  assert (H0 : 0 <= lam) by (apply Qle_shift_div_l; [assumption|lra]).
  assert (H1 : lam <= 1) by (apply Qle_shift_div_r; [assumption|lra]).
  assert (E : (i2 - i1) * (t - t1) / (t2 - t1) == (i2 - i1) * lam)
    by (unfold lam, Qdiv; ring).
  rewrite E.
  destruct (Qlt_le_dec i2 i1) as [Hd|Hd].
  - right. split; nra.
  - left. split; nra.
Qed.

(** X12.  Whenever [get_current] returns a number, that number lies
    between two currents of the profile: interpolation and clamping never
    leave the range of the profile's values. *)
Theorem get_current_within_profile_range (profile : dict) (t v : Q) :
  get_current profile t = Ok (Some v) ->
  exists lo hi,
    In lo (map snd profile) /\ In hi (map snd profile) /\
    lo <= v /\ v <= hi.
Proof.
  intro H. apply get_current_spec in H.
  destruct H as [(first & tl & _ & _ & G)
                |[(first & tl & _ & _ & G)
                 |(i & t1 & t2 & i1 & i2 & _ & _ & Hlo & Hup & G1 & G2 & ->)]].
  - apply dict_get_value in G. exists v, v.
    repeat split; try assumption; apply Qle_refl.
  - apply dict_get_value in G. exists v, v.
    repeat split; try assumption; apply Qle_refl.
  - apply dict_get_value in G1. apply dict_get_value in G2.
    destruct (interpolation_between i1 i2 t t1 t2 Hlo Hup) as [[A B]|[A B]].
    + exists i1, i2. auto.
    + exists i2, i1. auto.
Qed.

Lemma get_current_within_profile_range_witness :
  get_current profile_0_10 5 = Ok (Some (1.0 + (3.0 - 1.0) * (5 - 0) / (10 - 0))) /\
  exists lo hi,
    In lo (map snd profile_0_10) /\ In hi (map snd profile_0_10) /\
    lo <= 1.0 + (3.0 - 1.0) * (5 - 0) / (10 - 0) /\
    1.0 + (3.0 - 1.0) * (5 - 0) / (10 - 0) <= hi.
Proof.
  assert (H : get_current profile_0_10 5
              = Ok (Some (1.0 + (3.0 - 1.0) * (5 - 0) / (10 - 0))))
    by reflexivity.
  split; [exact H|].
  exact (get_current_within_profile_range profile_0_10 5 _ H).
Defined.

Lemma strongly_sorted_index (l : list Q) :
  StronglySorted Qle l ->
  forall i j a b, (i <= j)%nat ->
    nth_error l i = Some a -> nth_error l j = Some b -> a <= b.
Proof.
  induction 1 as [|x l Hl IH Hx]; intros i j a b Hij Ha Hb.
  - destruct i; discriminate.
  - destruct i as [|i], j as [|j]; simpl in *; try lia.
    + injection Ha as <-. injection Hb as <-. apply Qle_refl.
    + injection Ha as <-. rewrite Forall_forall in Hx.
      apply Hx. eapply nth_error_In. eassumption.
    + apply (IH i j); auto. lia.
Qed.

Lemma sorted_strongly (xs : list Q) : StronglySorted Qle (sorted xs).
Proof.
  apply Sorted_StronglySorted.
  - intros x y z. apply Qle_trans.
  - apply Sorted_LocallySorted_iff. apply sorted_is_sorted.
Qed.

(** X13.  The interpolation passes through the profile's points: at a
    time that is a key of the profile, [get_current] returns the current
    stored under that key. *)
Theorem get_current_at_profile_time (profile : dict) (tk : Q) :
  In tk (keys profile) ->
  exists v ik,
    get_current profile tk = Ok (Some v) /\
    dict_get profile tk = Ok ik /\ v == ik.
Proof.
  intro Hin.
  assert (Hne : profile <> []) by (destruct profile; [contradiction|discriminate]).
  destruct (get_current_defined profile tk Hne) as [v Hv].
  destruct (dict_get_key profile tk Hin) as [ik Hik].
  exists v, ik. split; [exact Hv|]. split; [exact Hik|].
  pose proof (sorted_strongly (keys profile)) as Hsorted.
  assert (Hmem : In tk (sorted (keys profile))) by (now apply sorted_In).
  apply In_nth_error in Hmem. destruct Hmem as [m Hm].
  apply get_current_spec in Hv.
  destruct Hv as [(first & tl & Es & Hle & G)
                 |[(first & tl & Es & Hle & G)
                  |(i & t1 & t2 & i1 & i2 & E1 & E2 & Hlo & Hup & G1 & G2 & ->)]].
  - assert (Hfirst : first <= tk).
    { apply (strongly_sorted_index _ Hsorted 0 m); [lia| |assumption].
      now rewrite Es. }
    assert (Heq : first == tk) by (apply Qle_antisym; assumption).
    rewrite (dict_get_Qeq profile first tk Heq) in G.
    rewrite G in Hik. injection Hik as <-. reflexivity.
  - assert (Hlast : tk <= last tl first).
    { apply (strongly_sorted_index _ Hsorted m (length tl)); [|assumption|].
      - assert (nth_error (sorted (keys profile)) m <> None) by congruence.
        apply nth_error_Some in H. rewrite Es in H. simpl in H. lia.
      - rewrite Es. apply nth_error_last. }
    assert (Heq : last tl first == tk) by (apply Qle_antisym; assumption).
    rewrite (dict_get_Qeq profile _ tk Heq) in G.
    rewrite G in Hik. injection Hik as <-. reflexivity.
  - destruct (Nat.le_gt_cases m i) as [Hmi|Hmi].
    + assert (Hle : tk <= t1)
        by (apply (strongly_sorted_index _ Hsorted m i); assumption).
      assert (Heq : t1 == tk) by (apply Qle_antisym; assumption).
      rewrite (dict_get_Qeq profile t1 tk Heq) in G1.
      rewrite G1 in Hik. injection Hik as <-.
      rewrite Heq. unfold Qdiv. ring.
    + exfalso.
      assert (Hle : t2 <= tk)
        by (apply (strongly_sorted_index _ Hsorted (i + 1) m);
            [lia|assumption|assumption]).
      lra.
Qed.

Lemma get_current_at_profile_time_witness :
  In 10 (keys profile_0_10) /\
  exists v ik,
    get_current profile_0_10 10 = Ok (Some v) /\
    dict_get profile_0_10 10 = Ok ik /\ v == ik.
Proof.
  assert (H : In 10 (keys profile_0_10)) by (right; left; reflexivity).
  split; [exact H|].
  exact (get_current_at_profile_time profile_0_10 10 H).
Defined.

(* ================================================================== *)
(** ** The discharge model, sample by sample *)

Lemma map2_map (f : Q -> Q -> Q) (g h : Q -> Q) (l : list Q) :
  map2 f (map g l) (map h l) = map (fun x => f (g x) (h x)) l.
Proof.
  unfold map2. induction l as [|x tl IH]; simpl; [reflexivity|].
  now rewrite IH.
Qed.

(** Every stored series is the time axis mapped through the formula of
    its quantity. *)
Lemma run_battery_simulation_series (simulation : SimulationResult.t) :
  (0 <= SimulationResult.simulation_duration simulation)%Z ->
  exists time r,
    linspace 0 (inject_Z (SimulationResult.simulation_duration simulation))
             (SimulationResult.simulation_duration simulation * 6) = Ok time /\
    run_battery_simulation simulation = Ok r /\
    SimulationResult.emf_data r
    = Some [("time"%string, time); ("emf"%string, map (emf_at simulation) time)] /\
    SimulationResult.terminal_voltage_data r
    = Some [("time"%string, time);
            ("voltage"%string, map (voltage_at simulation) time)] /\
    SimulationResult.current_data r
    = Some [("time"%string, time);
            ("current"%string, map (current_at simulation) time)] /\
    SimulationResult.resistance_data r
    = Some [("time"%string, time);
            ("resistance"%string, map (resistance_at simulation) time);
            ("soc"%string, map (soc_fraction_at simulation) time)] /\
    SimulationResult.soc_data r
    = Some [("time"%string, time);
            ("soc"%string,
             map (fun t => soc_fraction_at simulation t * 100) time)] /\
    SimulationResult.temperature_data r
    = Some [("time"%string, time);
            ("temperature"%string, map (temperature_at simulation) time)].
Proof.
  intro Hd.
  destruct (linspace_ok 0
              (inject_Z (SimulationResult.simulation_duration simulation))
              (SimulationResult.simulation_duration simulation * 6))
    as (time & Htime & _); [lia|].
  exists time. unfold run_battery_simulation. rewrite Htime. cbn [bind].
  eexists. split; [reflexivity|]. split; [reflexivity|].
  cbn [SimulationResult.emf_data SimulationResult.terminal_voltage_data
       SimulationResult.current_data SimulationResult.resistance_data
       SimulationResult.soc_data SimulationResult.temperature_data].
  rewrite !map_map.
  repeat (rewrite map2_map || rewrite map_map).
  repeat split; reflexivity.
Qed.

Lemma soc_fraction_range (simulation : SimulationResult.t) (t : Q) :
  0 <= SimulationResult.initial_soc simulation ->
  SimulationResult.initial_soc simulation <= 100 ->
  0 <= t ->
  0 <= soc_fraction_at simulation t /\ soc_fraction_at simulation t <= 1.
Proof.
  intros Hlo Hhi Ht. unfold soc_fraction_at, soc_at.
  assert (E : SimulationResult.initial_soc simulation / 100.0
              == SimulationResult.initial_soc simulation * (1 # 100)) by field.
  pose proof (decay_linear t) as Ed.
  split.
  - eapply Qle_trans; [|apply Q.le_max_r]. lra.
  - apply Q.max_lub; lra.
Qed.

Lemma resistance_range (simulation : SimulationResult.t) (t : Q) :
  0 <= SimulationResult.initial_soc simulation ->
  SimulationResult.initial_soc simulation <= 100 ->
  0 <= t ->
  0 <= BatteryCell.internal_resistance (SimulationResult.battery_cell simulation) ->
  BatteryCell.internal_resistance (SimulationResult.battery_cell simulation)
  / 1000.0 <= resistance_at simulation t /\
  resistance_at simulation t
  <= 1.5 * (BatteryCell.internal_resistance
              (SimulationResult.battery_cell simulation) / 1000.0).
Proof.
  intros Hlo Hhi Ht Hr.
  destruct (soc_fraction_range simulation t Hlo Hhi Ht) as [H0 H1].
  unfold resistance_at.
  set (base := BatteryCell.internal_resistance
                 (SimulationResult.battery_cell simulation) / 1000.0).
  assert (Hb : 0 <= base) by (unfold base; apply Qle_shift_div_l; lra).
  set (x := soc_fraction_at simulation t) in *.
  split; nra.
Qed.

Lemma time_samples_nonneg (simulation : SimulationResult.t) (time : list Q) :
  (0 < SimulationResult.simulation_duration simulation)%Z ->
  linspace 0 (inject_Z (SimulationResult.simulation_duration simulation))
           (SimulationResult.simulation_duration simulation * 6) = Ok time ->
  forall t, In t time -> 0 <= t.
Proof.
  intros Hd Htime t Hin. apply In_nth_error in Hin. destruct Hin as [i Hi].
  assert (Hstop : 0 <= inject_Z (SimulationResult.simulation_duration simulation)).
  { change 0 with (inject_Z 0). rewrite <- Zle_Qle. lia. }
  refine (proj1 (linspace_monotone _ _ _ Htime _ Hstop i i t t _ Hi Hi)); lia.
Qed.

(** X14.  For valid parameters and a cell with non-negative nominal
    voltage and internal resistance, every stored SOC fraction lies in
    [[0, 1]], every internal resistance between the base resistance
    (mOhm / 1000) and 1.5 times it, and every EMF between 0.9 and 1.1
    times the nominal voltage. *)
Theorem discharge_series_ranges (simulation : SimulationResult.t) :
  valid_parameters simulation ->
  0 <= BatteryCell.nominal_voltage (SimulationResult.battery_cell simulation) ->
  0 <= BatteryCell.internal_resistance (SimulationResult.battery_cell simulation) ->
  exists r time emf res soc,
    run_battery_simulation simulation = Ok r /\
    SimulationResult.emf_data r
    = Some [("time"%string, time); ("emf"%string, emf)] /\
    SimulationResult.resistance_data r
    = Some [("time"%string, time); ("resistance"%string, res);
            ("soc"%string, soc)] /\
    Forall (fun x => 0 <= x /\ x <= 1) soc /\
    Forall (fun x =>
              BatteryCell.internal_resistance
                (SimulationResult.battery_cell simulation) / 1000.0 <= x /\
              x <= 1.5 * (BatteryCell.internal_resistance
                            (SimulationResult.battery_cell simulation) / 1000.0))
           res /\
    Forall (fun x =>
              0.9 * BatteryCell.nominal_voltage
                      (SimulationResult.battery_cell simulation) <= x /\
              x <= 1.1 * BatteryCell.nominal_voltage
                           (SimulationResult.battery_cell simulation))
           emf.
Proof.
  intros (_ & Hlo & Hhi & Hd) Hv Hr.
  destruct (run_battery_simulation_series simulation)
    as (time & r & Htime & Hrun & Hemf & _ & _ & Hres & _); [lia|].
  pose proof (time_samples_nonneg simulation time Hd Htime) as Hpos.
  exists r, time, (map (emf_at simulation) time),
    (map (resistance_at simulation) time),
    (map (soc_fraction_at simulation) time).
  split; [exact Hrun|]. split; [exact Hemf|]. split; [exact Hres|].
  split; [|split]; apply Forall_map, Forall_forall; intros t Ht.
  - apply soc_fraction_range; auto.
  - apply resistance_range; auto.
  - destruct (soc_fraction_range simulation t Hlo Hhi (Hpos t Ht)) as [H0 H1].
    unfold emf_at.
    set (x := soc_fraction_at simulation t) in *.
    set (V := BatteryCell.nominal_voltage _) in *.
    split; nra.
Qed.

Lemma discharge_series_ranges_witness :
  valid_parameters demo_request /\
  exists (r : SimulationResult.t) (time emf : list Q),
    run_battery_simulation demo_request = Ok r /\
    SimulationResult.emf_data r
    = Some [("time"%string, time); ("emf"%string, emf)] /\
    Forall (fun x => 0.9 * 3.2 <= x /\ x <= 1.1 * 3.2) emf.
Proof.
  assert (Hv : valid_parameters demo_request).
  { unfold valid_parameters. cbn. repeat split; try lra. }
  split; [exact Hv|].
  destruct (discharge_series_ranges demo_request Hv)
    as (r & time & emf & res & soc & Hrun & Hemf & _ & _ & _ & Hrange).
  - cbn. lra.
  - cbn. lra.
  - exists r, time, emf. split; [exact Hrun|]. split; [exact Hemf|exact Hrange].
Defined.

(** X15.  For valid parameters and a cell with positive capacity and
    internal resistance, the terminal voltage is strictly below the EMF
    at every sample; the drop is the C/5 discharge current
    ([capacity / 1000 * 0.2]) times the internal resistance of that
    sample. *)
Theorem terminal_voltage_below_emf (simulation : SimulationResult.t) :
  valid_parameters simulation ->
  0 < BatteryCell.capacity (SimulationResult.battery_cell simulation) ->
  0 < BatteryCell.internal_resistance (SimulationResult.battery_cell simulation) ->
  exists r time emf voltage res soc,
    run_battery_simulation simulation = Ok r /\
    SimulationResult.emf_data r
    = Some [("time"%string, time); ("emf"%string, emf)] /\
    SimulationResult.terminal_voltage_data r
    = Some [("time"%string, time); ("voltage"%string, voltage)] /\
    SimulationResult.resistance_data r
    = Some [("time"%string, time); ("resistance"%string, res);
            ("soc"%string, soc)] /\
    forall i e v x,
      nth_error emf i = Some e -> nth_error voltage i = Some v ->
      nth_error res i = Some x ->
      v < e /\
      e - v == BatteryCell.capacity (SimulationResult.battery_cell simulation)
               / 1000.0 * 0.2 * x.
Proof.
  intros (_ & Hlo & Hhi & Hd) Hcap Hr.
  destruct (run_battery_simulation_series simulation)
    as (time & r & Htime & Hrun & Hemf & Hvolt & _ & Hres & _); [lia|].
  pose proof (time_samples_nonneg simulation time Hd Htime) as Hpos.
  exists r, time, (map (emf_at simulation) time),
    (map (voltage_at simulation) time),
    (map (resistance_at simulation) time),
    (map (soc_fraction_at simulation) time).
  split; [exact Hrun|]. split; [exact Hemf|]. split; [exact Hvolt|].
  split; [exact Hres|].
  intros i e v x He Hv Hx.
  rewrite nth_error_map in He, Hv, Hx.
  destruct (nth_error time i) as [t|] eqn:Et; [|discriminate].
  cbn in He, Hv, Hx. injection He as <-. injection Hv as <-. injection Hx as <-.
  assert (Ht : 0 <= t) by (apply Hpos; eapply nth_error_In; eassumption).
  destruct (resistance_range simulation t Hlo Hhi Ht (Qlt_le_weak _ _ Hr))
    as [Hbase _].
  assert (Hb : 0 < BatteryCell.internal_resistance
                     (SimulationResult.battery_cell simulation) / 1000.0)
    by (apply Qlt_shift_div_l; lra).
  assert (Hc : 0 < BatteryCell.capacity
                     (SimulationResult.battery_cell simulation) / 1000.0)
    by (apply Qlt_shift_div_l; lra).
  unfold voltage_at.
  set (R := resistance_at simulation t) in *.
  set (E := emf_at simulation t).
  set (C := BatteryCell.capacity _ / 1000.0) in *.
  set (B := BatteryCell.internal_resistance _ / 1000.0) in *.
  split; [nra|ring].
Qed.

Lemma terminal_voltage_below_emf_witness :
  valid_parameters demo_request /\
  exists (r : SimulationResult.t) (time voltage : list Q),
    run_battery_simulation demo_request = Ok r /\
    SimulationResult.terminal_voltage_data r
    = Some [("time"%string, time); ("voltage"%string, voltage)].
Proof.
  assert (Hv : valid_parameters demo_request).
  { unfold valid_parameters. cbn. repeat split; try lra. }
  split; [exact Hv|].
  destruct (terminal_voltage_below_emf demo_request Hv)
    as (r & time & emf & voltage & res & soc & Hrun & _ & Hvolt & _).
  - cbn. lra.
  - cbn. lra.
  - exists r, time, voltage. split; [exact Hrun|exact Hvolt].
Defined.

(** X16.  For valid parameters, a cell with non-negative internal
    resistance and positive thermal resistance: at every sample the
    stored current times the total resistance (load plus internal)
    gives back the stored terminal voltage, and the stored temperature
    is at least the ambient temperature. *)
Theorem current_and_temperature_consistent (simulation : SimulationResult.t) :
  valid_parameters simulation ->
  0 <= BatteryCell.internal_resistance (SimulationResult.battery_cell simulation) ->
  0 < BatteryCell.heat_resistance (SimulationResult.battery_cell simulation) ->
  exists r time voltage current res soc temperature,
    run_battery_simulation simulation = Ok r /\
    SimulationResult.terminal_voltage_data r
    = Some [("time"%string, time); ("voltage"%string, voltage)] /\
    SimulationResult.current_data r
    = Some [("time"%string, time); ("current"%string, current)] /\
    SimulationResult.resistance_data r
    = Some [("time"%string, time); ("resistance"%string, res);
            ("soc"%string, soc)] /\
    SimulationResult.temperature_data r
    = Some [("time"%string, time); ("temperature"%string, temperature)] /\
    (forall i v c x,
        nth_error voltage i = Some v -> nth_error current i = Some c ->
        nth_error res i = Some x ->
        c * (SimulationResult.load_resistance simulation + x) == v) /\
    Forall (fun x => SimulationResult.temperature simulation <= x) temperature.
Proof.
  intros (Hload & Hlo & Hhi & Hd) Hr Hheat.
  destruct (run_battery_simulation_series simulation)
    as (time & r & Htime & Hrun & _ & Hvolt & Hcur & Hres & _ & Htemp); [lia|].
  pose proof (time_samples_nonneg simulation time Hd Htime) as Hpos.
  exists r, time, (map (voltage_at simulation) time),
    (map (current_at simulation) time),
    (map (resistance_at simulation) time),
    (map (soc_fraction_at simulation) time),
    (map (temperature_at simulation) time).
  split; [exact Hrun|]. split; [exact Hvolt|]. split; [exact Hcur|].
  split; [exact Hres|]. split; [exact Htemp|].
  assert (Hbase : 0 <= BatteryCell.internal_resistance
                         (SimulationResult.battery_cell simulation) / 1000.0)
    by (apply Qle_shift_div_l; lra).
  split.
  - intros i v c x Hv Hc Hx.
    rewrite nth_error_map in Hv, Hc, Hx.
    destruct (nth_error time i) as [t|] eqn:Et; [|discriminate].
    cbn in Hv, Hc, Hx. injection Hv as <-. injection Hc as <-. injection Hx as <-.
    assert (Ht : 0 <= t) by (apply Hpos; eapply nth_error_In; eassumption).
    destruct (resistance_range simulation t Hlo Hhi Ht Hr) as [HR _].
    unfold current_at. field. lra.
  - apply Forall_map, Forall_forall. intros t Hin.
    destruct (resistance_range simulation t Hlo Hhi (Hpos t Hin) Hr) as [HR _].
    unfold temperature_at.
    assert (Hsq : 0 <= current_at simulation t ^ 2).
    { change (current_at simulation t ^ 2)
        with (current_at simulation t * current_at simulation t).
      nra. }
    assert (Hheat' : 0 <= current_at simulation t ^ 2
                          * resistance_at simulation t
                          / BatteryCell.heat_resistance
                              (SimulationResult.battery_cell simulation)).
    { apply Qle_shift_div_l; [assumption|].
      rewrite Qmult_0_l. apply Qmult_le_0_compat; lra. }
    lra.
Qed.

Lemma current_and_temperature_consistent_witness :
  valid_parameters demo_request /\
  exists (r : SimulationResult.t) (time temperature : list Q),
    run_battery_simulation demo_request = Ok r /\
    SimulationResult.temperature_data r
    = Some [("time"%string, time); ("temperature"%string, temperature)] /\
    Forall (fun x => 25 <= x) temperature.
Proof.
  assert (Hv : valid_parameters demo_request).
  { unfold valid_parameters. cbn. repeat split; try lra. }
  split; [exact Hv|].
  destruct (current_and_temperature_consistent demo_request Hv)
    as (r & time & voltage & current & res & soc & temperature
          & Hrun & _ & _ & _ & Htemp & _ & Hge).
  - cbn. lra.
  - cbn. lra.
  - exists r, time, temperature.
    split; [exact Hrun|]. split; [exact Htemp|exact Hge].
Defined.

Lemma run_battery_simulation_fixed (simulation r : SimulationResult.t) :
  run_battery_simulation simulation = Ok r ->
  run_battery_simulation r = Ok r /\
  SimulationResult.battery_cell r = SimulationResult.battery_cell simulation /\
  SimulationResult.load_resistance r = SimulationResult.load_resistance simulation /\
  SimulationResult.initial_soc r = SimulationResult.initial_soc simulation /\
  SimulationResult.temperature r = SimulationResult.temperature simulation /\
  SimulationResult.simulation_duration r
  = SimulationResult.simulation_duration simulation.
Proof.
  unfold run_battery_simulation at 1.
  destruct (linspace 0 (inject_Z (SimulationResult.simulation_duration simulation))
              (SimulationResult.simulation_duration simulation * 6))
    as [time|e] eqn:E; [|discriminate].
  cbn [bind]. intro H. injection H as <-.
  split; [|repeat split].
  unfold run_battery_simulation.
  cbn [SimulationResult.battery_cell SimulationResult.load_resistance
       SimulationResult.initial_soc SimulationResult.temperature
       SimulationResult.simulation_duration].
  rewrite E. reflexivity.
Qed.

(** X17.  [run_battery_simulation] reads only the input fields and
    overwrites all six result objects, so running it again on its own
    result changes nothing. *)
Theorem run_battery_simulation_idempotent (simulation r : SimulationResult.t) :
  run_battery_simulation simulation = Ok r ->
  run_battery_simulation r = Ok r /\
  SimulationResult.battery_cell r = SimulationResult.battery_cell simulation /\
  SimulationResult.load_resistance r = SimulationResult.load_resistance simulation /\
  SimulationResult.initial_soc r = SimulationResult.initial_soc simulation /\
  SimulationResult.temperature r = SimulationResult.temperature simulation /\
  SimulationResult.simulation_duration r
  = SimulationResult.simulation_duration simulation.
Proof. apply run_battery_simulation_fixed. Qed.

Lemma run_battery_simulation_idempotent_witness :
  exists r,
    run_battery_simulation demo_request = Ok r /\
    run_battery_simulation r = Ok r.
Proof.
  destruct (run_battery_simulation_ok demo_request)
    as (time & r & _ & _ & Hrun & _); [cbn; lia|].
  exists r. split; [exact Hrun|].
  exact (proj1 (run_battery_simulation_idempotent demo_request r Hrun)).
Defined.

Lemma nth_error_set_nth_eq {A : Type} (k : nat) (v : A) (xs : list A) :
  (k < length xs)%nat -> nth_error (set_nth k v xs) k = Some v.
Proof.
  revert k. induction xs as [|x tl IH]; intros [|k] H; simpl in *;
    try lia; [reflexivity|]. apply IH. lia.
Qed.

Lemma linspace_last (a b : Q) (num : Z) (l : list Q) :
  linspace a b num = Ok l -> (1 < num)%Z ->
  nth_error l (length l - 1) = Some b.
Proof.
  intros Hl Hnum. unfold linspace in Hl.
  destruct (num <? 0)%Z; [discriminate|].
  assert (E2 : (1 <? num)%Z = true) by (apply Z.ltb_lt; lia).
  rewrite E2 in Hl. injection Hl as <-.
  rewrite set_nth_length, length_map, length_seq.
  apply nth_error_set_nth_eq. rewrite length_map, length_seq. lia.
Qed.

(** X18.  For a positive duration the stored time axis starts at 0,
    ends exactly at the duration, and consecutive samples are
    [duration / (6 * duration - 1)] minutes apart, which is strictly
    more than the ten seconds (1/6 minute) the source comment names. *)
Theorem time_axis_spacing (simulation : SimulationResult.t) :
  (0 < SimulationResult.simulation_duration simulation)%Z ->
  exists r time,
    run_battery_simulation simulation = Ok r /\
    SimulationResult.soc_data r
    = Some [("time"%string, time);
            ("soc"%string,
             map (fun t => soc_fraction_at simulation t * 100) time)] /\
    length time = Z.to_nat (SimulationResult.simulation_duration simulation * 6) /\
    (exists t0, nth_error time 0 = Some t0 /\ t0 == 0) /\
    nth_error time (length time - 1)
    = Some (inject_Z (SimulationResult.simulation_duration simulation)) /\
    (forall i a b,
        nth_error time i = Some a -> nth_error time (S i) = Some b ->
        b - a == inject_Z (SimulationResult.simulation_duration simulation)
                 / inject_Z (SimulationResult.simulation_duration simulation * 6 - 1)
        /\ (1 # 6) < b - a).
Proof.
  intro Hd.
  destruct (run_battery_simulation_series simulation)
    as (time & r & Htime & Hrun & _ & _ & _ & _ & Hsoc & _); [lia|].
  destruct (linspace_ok 0
              (inject_Z (SimulationResult.simulation_duration simulation))
              (SimulationResult.simulation_duration simulation * 6))
    as (time' & Htime' & Hlen); [lia|].
  rewrite Htime in Htime'. injection Htime' as <-.
  assert (Hnum : (1 < SimulationResult.simulation_duration simulation * 6)%Z)
    by lia.
  exists r, time. split; [exact Hrun|]. split; [exact Hsoc|].
  split; [exact Hlen|].
  set (d := SimulationResult.simulation_duration simulation) in *.
  assert (Hk : 0 < inject_Z (d * 6 - 1)).
  { change 0 with (inject_Z 0). rewrite <- Zlt_Qlt. lia. }
  split; [|split].
  - destruct (nth_error time 0) as [t0|] eqn:E0.
    + exists t0. split; [reflexivity|].
      rewrite (linspace_values 0 (inject_Z d) (d * 6) time Htime Hnum 0 t0 E0).
      cbn. ring.
    + apply nth_error_None in E0. lia.
  - exact (linspace_last 0 (inject_Z d) (d * 6) time Htime Hnum).
  - intros i a b Ha Hb.
    rewrite (linspace_values 0 (inject_Z d) (d * 6) time Htime Hnum i a Ha).
    rewrite (linspace_values 0 (inject_Z d) (d * 6) time Htime Hnum (S i) b Hb).
    rewrite Nat2Z.inj_succ. unfold Z.succ. rewrite inject_Z_plus.
    assert (Estep : 0 + (inject_Z (Z.of_nat i) + inject_Z 1)
                        * ((inject_Z d - 0) / inject_Z (d * 6 - 1))
                    - (0 + inject_Z (Z.of_nat i)
                           * ((inject_Z d - 0) / inject_Z (d * 6 - 1)))
                    == inject_Z d / inject_Z (d * 6 - 1)).
    { change (inject_Z 1) with 1. field. lra. }
    split; [exact Estep|].
    rewrite Estep. apply Qlt_shift_div_l; [assumption|].
    assert (Ek : inject_Z (d * 6 - 1) == inject_Z d * 6 - 1).
    { unfold Z.sub. rewrite inject_Z_plus, inject_Z_mult. reflexivity. }
    rewrite Ek.
    assert (0 < inject_Z d)
      by (change 0 with (inject_Z 0); rewrite <- Zlt_Qlt; lia).
    lra.
Qed.

Lemma time_axis_spacing_witness :
  exists (r : SimulationResult.t) (time : list Q),
    run_battery_simulation demo_request = Ok r /\
    length time = 360%nat /\
    nth_error time (length time - 1) = Some (inject_Z 60).
Proof.
  destruct (time_axis_spacing demo_request)
    as (r & time & Hrun & _ & Hlen & _ & Hlast & _); [reflexivity|].
  exists r, time. split; [exact Hrun|]. split; [exact Hlen|exact Hlast].
Defined.

(* ================================================================== *)
(** ** Cell volume: all outcomes *)


(* ================================================================== *)
(** ** The cell table *)

Lemma matches_iff (cell_type form_factor : string) (c : BatteryCell.t) :
  matches cell_type form_factor c = true <->
  BatteryCell.cell_type c = cell_type /\ BatteryCell.form_factor c = form_factor.
Proof.
  unfold matches. rewrite andb_true_iff, !String.eqb_eq. tauto.
Qed.

Lemma default_cell_key (cell_type form_factor : string) :
  BatteryCell.cell_type (default_cell cell_type form_factor) = cell_type /\
  BatteryCell.form_factor (default_cell cell_type form_factor) = form_factor.
Proof.
  unfold default_cell.
  destruct (String.eqb cell_type "li_ion_phosphate"
            && String.eqb form_factor "cylindrical"); split; reflexivity.
Qed.

(** The default cell always has the dimensions its form factor needs. *)
Lemma default_cell_volume (cell_type form_factor : string) :
  exists v,
    BatteryCell.calculate_volume (default_cell cell_type form_factor) = Ok v /\
    0 <= v.
Proof.
  unfold default_cell, BatteryCell.calculate_volume.
  destruct (String.eqb cell_type "li_ion_phosphate"
            && String.eqb form_factor "cylindrical") eqn:E;
    cbn [BatteryCell.form_factor BatteryCell.diameter BatteryCell.width
         BatteryCell.height BatteryCell.length].
  - apply andb_true_iff in E. destruct E as [_ E]. rewrite E.
    cbn [BatteryCell.number bind]. eexists. split; [reflexivity|].
    vm_compute. discriminate.
  - destruct (String.eqb form_factor "cylindrical").
    + cbn [BatteryCell.number bind]. eexists. split; [reflexivity|].
      vm_compute. discriminate.
    + destruct (String.eqb form_factor "prismatic" || String.eqb form_factor "pouch").
      * cbn [BatteryCell.number bind]. eexists. split; [reflexivity|].
        vm_compute. discriminate.
      * eexists. split; [reflexivity|]. apply Qle_refl.
Qed.

Lemma filter_matches_snoc (cell_type form_factor : string)
  (table : list BatteryCell.t) (c : BatteryCell.t) :
  filter (matches cell_type form_factor) (table ++ [c])
  = filter (matches cell_type form_factor) table
    ++ (if matches cell_type form_factor c then [c] else []).
Proof. now rewrite filter_app. Qed.

Lemma get_or_create_cell_fresh (table : list BatteryCell.t)
  (cell_type form_factor : string) :
  objects_get table cell_type form_factor = DoesNotExist ->
  exists c v,
    get_or_create_cell table cell_type form_factor = inl (c, table ++ [c]) /\
    BatteryCell.cell_type c = cell_type /\
    BatteryCell.form_factor c = form_factor /\
    BatteryCell.volume c = Some v /\ 0 <= v /\
    objects_get (table ++ [c]) cell_type form_factor = Found c /\
    get_or_create_cell (table ++ [c]) cell_type form_factor
    = inl (c, table ++ [c]) /\
    forall cell_type' form_factor',
      (cell_type', form_factor') <> (cell_type, form_factor) ->
      objects_get (table ++ [c]) cell_type' form_factor'
      = objects_get table cell_type' form_factor'.
Proof.
  intro Hnone.
  destruct (default_cell_volume cell_type form_factor) as (v & Hv & Hpos).
  destruct (default_cell_key cell_type form_factor) as [Hct Hff].
  set (c := BatteryCell.set_volume (Some v) (default_cell cell_type form_factor)).
  assert (Hkey : BatteryCell.cell_type c = cell_type /\
                 BatteryCell.form_factor c = form_factor)
    by (split; assumption).
  assert (Hfilter : filter (matches cell_type form_factor) table = []).
  { unfold objects_get in Hnone.
    destruct (filter (matches cell_type form_factor) table) as [|a [|b l]];
      [reflexivity|discriminate|discriminate]. }
  assert (Hfound : objects_get (table ++ [c]) cell_type form_factor = Found c).
  { unfold objects_get. rewrite filter_matches_snoc, Hfilter.
    now rewrite (proj2 (matches_iff cell_type form_factor c) Hkey). }
  exists c, v.
  split.
  { unfold get_or_create_cell. rewrite Hnone.
    unfold BatteryCell.save. rewrite Hv. reflexivity. }
  split; [exact Hct|]. split; [exact Hff|]. split; [reflexivity|].
  split; [exact Hpos|]. split; [exact Hfound|]. split.
  { unfold get_or_create_cell. now rewrite Hfound. }
  intros ct' ff' Hne. unfold objects_get. rewrite filter_matches_snoc.
  destruct (matches ct' ff' c) eqn:Em; [|now rewrite app_nil_r].
  apply matches_iff in Em. destruct Em as [E1 E2]. destruct Hkey as [K1 K2].
  exfalso. apply Hne. congruence.
Qed.

(** X20.  When no cell is stored for a pair of cell type and form
    factor, [index]'s fallback creates the default cell and saves it
    without error, whatever the two strings are: the stored row carries
    the pair and a computed, non-negative volume; a lookup of the pair
    now finds exactly that row; a second call adds nothing; and lookups
    of every other pair are unaffected. *)
Theorem get_or_create_cell_creates (table : list BatteryCell.t)
  (cell_type form_factor : string) :
  objects_get table cell_type form_factor = DoesNotExist ->
  exists c v,
    get_or_create_cell table cell_type form_factor = inl (c, table ++ [c]) /\
    BatteryCell.cell_type c = cell_type /\
    BatteryCell.form_factor c = form_factor /\
    BatteryCell.volume c = Some v /\ 0 <= v /\
    objects_get (table ++ [c]) cell_type form_factor = Found c /\
    get_or_create_cell (table ++ [c]) cell_type form_factor
    = inl (c, table ++ [c]) /\
    forall cell_type' form_factor',
      (cell_type', form_factor') <> (cell_type, form_factor) ->
      objects_get (table ++ [c]) cell_type' form_factor'
      = objects_get table cell_type' form_factor'.
Proof. apply get_or_create_cell_fresh. Qed.

Lemma get_or_create_cell_creates_witness :
  objects_get [] "nimh" "pouch" = DoesNotExist /\
  exists c,
    get_or_create_cell [] "nimh" "pouch" = inl (c, [c]) /\
    objects_get [c] "nimh" "pouch" = Found c.
Proof.
  assert (H : objects_get [] "nimh" "pouch" = DoesNotExist) by reflexivity.
  split; [exact H|].
  destruct (get_or_create_cell_creates [] "nimh" "pouch" H)
    as (c & v & Hc & _ & _ & _ & _ & Hfound & _).
  exists c. split; [exact Hc|exact Hfound].
Defined.

Lemma get_or_create_cell_unique (table : list BatteryCell.t)
  (cell_type form_factor : string) :
  one_cell_per_key table ->
  exists c table',
    get_or_create_cell table cell_type form_factor = inl (c, table') /\
    BatteryCell.cell_type c = cell_type /\
    BatteryCell.form_factor c = form_factor /\
    In c table' /\
    (table' = table \/ table' = table ++ [c]) /\
    one_cell_per_key table'.
Proof.
  intro Huniq.
  destruct (objects_get table cell_type form_factor) as [c| |] eqn:Hget.
  - exists c, table. unfold get_or_create_cell. rewrite Hget.
    unfold objects_get in Hget.
    destruct (filter (matches cell_type form_factor) table) as [|a [|b l]] eqn:Ef;
      try discriminate.
    injection Hget as ->.
    assert (Hin : In c (filter (matches cell_type form_factor) table))
      by (rewrite Ef; now left).
    apply filter_In in Hin. destruct Hin as [Hin Hm].
    apply matches_iff in Hm. destruct Hm as [H1 H2].
    repeat split; auto.
  - destruct (get_or_create_cell_fresh table cell_type form_factor Hget)
      as (c & v & Hc & H1 & H2 & _ & _ & Hfound & _ & Hother).
    exists c, (table ++ [c]).
    split; [exact Hc|]. split; [exact H1|]. split; [exact H2|].
    split; [apply in_or_app; right; now left|]. split; [now right|].
    intros ct' ff'. rewrite filter_matches_snoc.
    destruct (matches ct' ff' c) eqn:Em.
    + apply matches_iff in Em. destruct Em as [E1 E2].
      subst ct' ff'. rewrite H1, H2.
      unfold objects_get in Hget.
      destruct (filter (matches cell_type form_factor) table) as [|a [|b l]];
        try discriminate. simpl. lia.
    + rewrite app_nil_r. apply Huniq.
  - exfalso. unfold objects_get in Hget.
    specialize (Huniq cell_type form_factor).
    destruct (filter (matches cell_type form_factor) table) as [|a [|b l]];
      try discriminate. simpl in Huniq. lia.
Qed.

(** X21.  On a table that holds at most one cell per pair of cell type
    and form factor, [get_or_create_cell] never fails, returns a cell
    carrying the requested pair, only ever appends to the table, and
    leaves a table that still holds at most one cell per pair. *)
Theorem get_or_create_cell_keeps_keys_unique (table : list BatteryCell.t)
  (cell_type form_factor : string) :
  one_cell_per_key table ->
  exists c table',
    get_or_create_cell table cell_type form_factor = inl (c, table') /\
    BatteryCell.cell_type c = cell_type /\
    BatteryCell.form_factor c = form_factor /\
    In c table' /\
    (table' = table \/ table' = table ++ [c]) /\
    one_cell_per_key table'.
Proof. apply get_or_create_cell_unique. Qed.

Lemma get_or_create_cell_keeps_keys_unique_witness :
  one_cell_per_key [demo_cell] /\
  exists c table',
    get_or_create_cell [demo_cell] "lead_acid" "prismatic" = inl (c, table') /\
    one_cell_per_key table'.
Proof.
  assert (H : one_cell_per_key [demo_cell]).
  { intros ct ff. simpl. destruct (matches ct ff demo_cell); simpl; lia. }
  split; [exact H|].
  destruct (get_or_create_cell_keeps_keys_unique [demo_cell]
              "lead_acid" "prismatic" H)
    as (c & table' & Hc & _ & _ & _ & _ & Huniq).
  exists c, table'. split; [exact Hc|exact Huniq].
Defined.

(* ================================================================== *)
(** ** The views *)

(** X22.  [get_cell_specs] answers 404 while no cell is stored for the
    pair; once [index]'s fallback has created the default cell it answers
    with the ten specification fields, and the volume among them is the
    computed one, never null. *)
Theorem get_cell_specs_after_creation (table : list BatteryCell.t)
  (cell_type form_factor : string) :
  objects_get table cell_type form_factor = DoesNotExist ->
  get_cell_specs table cell_type form_factor = inl NotFound404 /\
  exists c table' fields v,
    get_or_create_cell table cell_type form_factor = inl (c, table') /\
    get_cell_specs table' cell_type form_factor = inl (Specs fields) /\
    map fst fields
    = ["length"; "diameter"; "height"; "width"; "volume"; "energy_density";
       "nominal_voltage"; "capacity"; "internal_resistance";
       "heat_resistance"]%string /\
    In ("volume"%string, Some v) fields /\
    BatteryCell.calculate_volume (default_cell cell_type form_factor) = Ok v.
Proof.
  intro Hnone. split.
  - unfold get_cell_specs. now rewrite Hnone.
  - destruct (default_cell_volume cell_type form_factor) as (v & Hv & _).
    destruct (get_or_create_cell_fresh table cell_type form_factor Hnone)
      as (c & v' & Hc & _ & _ & Hvol & _ & Hfound & _).
    assert (Evv : v' = v).
    { unfold get_or_create_cell in Hc. rewrite Hnone in Hc.
      unfold BatteryCell.save in Hc. rewrite Hv in Hc. cbn [bind] in Hc.
      injection Hc as Hc _. rewrite <- Hc in Hvol. cbn in Hvol. congruence. }
    subst v'.
    exists c, (table ++ [c]).
    eexists. exists v. split; [exact Hc|].
    split; [unfold get_cell_specs; rewrite Hfound; reflexivity|].
    split; [reflexivity|]. split; [|exact Hv].
    rewrite Hvol. cbn. tauto.
Qed.

Lemma get_cell_specs_after_creation_witness :
  objects_get [] "li_ion_phosphate" "cylindrical" = DoesNotExist /\
  get_cell_specs [] "li_ion_phosphate" "cylindrical" = inl NotFound404.
Proof.
  assert (H : objects_get [] "li_ion_phosphate" "cylindrical" = DoesNotExist)
    by reflexivity.
  split; [exact H|].
  exact (proj1 (get_cell_specs_after_creation [] _ _ H)).
Defined.

(** X23.  With at most one stored cell per pair and a non-negative
    duration, a POST to [index] with valid forms stores exactly one new
    simulation: it carries the submitted parameters, the cell of the
    requested pair and all six result objects; the redirect names it, and
    [simulation_results] for that id returns it.  The cell table keeps at
    most one cell per pair. *)
Theorem index_post_stores_the_simulation (db : database)
  (cell_type form_factor : string)
  (load_resistance initial_soc temperature : Q) (duration : Z) :
  one_cell_per_key (cells db) -> (0 <= duration)%Z ->
  exists db' r,
    index_post db cell_type form_factor load_resistance initial_soc
               temperature duration
    = (db', Redirect (length (simulations db))) /\
    simulations db' = simulations db ++ [r] /\
    simulation_results db' (length (simulations db)) = Some r /\
    SimulationResult.load_resistance r = load_resistance /\
    SimulationResult.initial_soc r = initial_soc /\
    SimulationResult.temperature r = temperature /\
    SimulationResult.simulation_duration r = duration /\
    BatteryCell.cell_type (SimulationResult.battery_cell r) = cell_type /\
    BatteryCell.form_factor (SimulationResult.battery_cell r) = form_factor /\
    In (SimulationResult.battery_cell r) (cells db') /\
    Forall (fun o => o <> None) (result_objects r) /\
    one_cell_per_key (cells db').
Proof.
  intros Huniq Hd.
  destruct (get_or_create_cell_unique (cells db) cell_type form_factor Huniq)
    as (c & table' & Hc & H1 & H2 & Hin & _ & Huniq').
  set (simulation :=
         {| SimulationResult.battery_cell := c;
            SimulationResult.load_resistance := load_resistance;
            SimulationResult.initial_soc := initial_soc;
            SimulationResult.temperature := temperature;
            SimulationResult.simulation_duration := duration;
            SimulationResult.emf_data := None;
            SimulationResult.terminal_voltage_data := None;
            SimulationResult.current_data := None;
            SimulationResult.resistance_data := None;
            SimulationResult.soc_data := None;
            SimulationResult.temperature_data := None |}).
  destruct (run_battery_simulation_ok simulation Hd)
    as (time & r & _ & _ & Hrun & _ & _ & Hall).
  destruct (run_battery_simulation_fixed simulation r Hrun)
    as (_ & Ecell & Eload & Esoc & Etemp & Edur).
  exists {| cells := table'; simulations := simulations db ++ [r] |}, r.
  split.
  { unfold index_post. rewrite Hc. fold simulation. now rewrite Hrun. }
  split; [reflexivity|]. split.
  { unfold simulation_results. cbn [simulations].
    rewrite nth_error_app2 by lia. now rewrite Nat.sub_diag. }
  rewrite Ecell, Eload, Esoc, Etemp, Edur. cbn [cells].
  repeat split; try assumption.
  apply Forall_forall. intros o Ho.
  destruct (Hall o Ho) as (series & -> & _). discriminate.
Qed.

Lemma index_post_stores_the_simulation_witness :
  one_cell_per_key (cells {| cells := []; simulations := [] |}) /\
  exists db' r,
    index_post {| cells := []; simulations := [] |}
               "li_ion_phosphate" "cylindrical" 1.0 100 25 60
    = (db', Redirect 0) /\
    simulation_results db' 0 = Some r.
Proof.
  assert (H : one_cell_per_key (cells {| cells := []; simulations := [] |})).
  { intros ct ff. simpl. lia. }
  split; [exact H|].
  destruct (index_post_stores_the_simulation
              {| cells := []; simulations := [] |}
              "li_ion_phosphate" "cylindrical" 1.0 100 25 60 H)
    as (db' & r & Hpost & _ & Hres & _); [lia|].
  exists db', r. split; [exact Hpost|exact Hres].
Defined.

(** X24.  A POST to [index] with a negative duration fails with the
    [ValueError] of [np.linspace]: no simulation is stored.  The cell
    lookup has run before, so a cell that was missing has been created
    and its row stays in the table. *)
Theorem index_post_negative_duration (db : database)
  (cell_type form_factor : string)
  (load_resistance initial_soc temperature : Q) (duration : Z) :
  one_cell_per_key (cells db) -> (duration < 0)%Z ->
  exists db',
    index_post db cell_type form_factor load_resistance initial_soc
               temperature duration
    = (db', ServerError (PythonError ValueError)) /\
    simulations db' = simulations db /\
    (forall c, objects_get (cells db) cell_type form_factor = Found c ->
               cells db' = cells db) /\
    (objects_get (cells db) cell_type form_factor = DoesNotExist ->
     exists c, cells db' = cells db ++ [c] /\
               objects_get (cells db') cell_type form_factor = Found c).
Proof.
  intros Huniq Hd.
  destruct (get_or_create_cell_unique (cells db) cell_type form_factor Huniq)
    as (c & table' & Hc & _).
  exists {| cells := table'; simulations := simulations db |}.
  split.
  { unfold index_post. rewrite Hc. unfold run_battery_simulation.
    cbn [SimulationResult.simulation_duration].
    rewrite linspace_negative by lia. reflexivity. }
  split; [reflexivity|]. cbn [cells]. split.
  - intros c0 Hfound. unfold get_or_create_cell in Hc.
    rewrite Hfound in Hc. now injection Hc as _ <-.
  - intro Hnone.
    destruct (get_or_create_cell_fresh (cells db) cell_type form_factor Hnone)
      as (c1 & v & Hc1 & _ & _ & _ & _ & Hfound & _).
    rewrite Hc in Hc1. injection Hc1 as -> ->.
    exists c1. split; [reflexivity|exact Hfound].
Qed.

Lemma index_post_negative_duration_witness :
  exists db',
    index_post {| cells := []; simulations := [] |}
               "li_ion_phosphate" "cylindrical" 1.0 100 25 (-1)
    = (db', ServerError (PythonError ValueError)) /\
    simulations db' = [].
Proof.
  destruct (index_post_negative_duration
              {| cells := []; simulations := [] |}
              "li_ion_phosphate" "cylindrical" 1.0 100 25 (-1))
    as (db' & Hpost & Hsims & _).
  - intros ct ff. simpl. lia.
  - lia.
  - exists db'. split; [exact Hpost|exact Hsims].
Defined.

(* ================================================================== *)
(** ** The constructor *)

Lemma initial_field_cells (x : Q) (i j : nat) :
  (i < nr)%nat -> (j < nz)%nat ->
  get2 (np_scale (np_ones nr nz) x) i j = 1 * x.
Proof.
  unfold nr, nz. intros Hi Hj.
  do 10 (destruct i as [|i];
         [do 20 (destruct j as [|j]; [reflexivity|]); lia|]).
  lia.
Qed.

(** X25.  With a non-empty profile the constructor succeeds and leaves:
    radius, height and capacity converted from mm and mAh by a factor
    1000; radial and axial meshes of [nr] and [nz] nodes that start at 0,
    end at the radius and the height, with spacings [radius / (nr - 1)]
    and [height / (nz - 1)]; an [nr] by [nz] field at the initial
    temperature everywhere; time 0; the current of the profile at time 0;
    and both flags cleared. *)
Theorem constructor_postconditions (p : SimulationParameters.t) (cb : bool) :
  SimulationParameters.current_profile p <> [] ->
  exists s c,
    __init__ p cb = Ok s /\
    radius s = SimulationParameters.cell_radius p / 1000 /\
    height s = SimulationParameters.cell_height p / 1000 /\
    capacity s = SimulationParameters.nominal_capacity p / 1000 /\
    length (mesh_r s) = nr /\ length (mesh_z s) = nz /\
    nth 0 (mesh_r s) 0 == 0 /\ nth (nr - 1) (mesh_r s) 0 = radius s /\
    nth 0 (mesh_z s) 0 == 0 /\ nth (nz - 1) (mesh_z s) 0 = height s /\
    mesh_dr s == radius s / 9 /\ mesh_dz s == height s / 19 /\
    shape (T s) nr nz /\
    (forall i j, (i < nr)%nat -> (j < nz)%nat ->
       get2 (T s) i j == SimulationParameters.initial_temperature p) /\
    get_current (SimulationParameters.current_profile p) 0 = Ok (Some c) /\
    current s = Some c /\
    current_time s = 0 /\ running s = false /\ paused s = false.
Proof.
  intro Hne.
  destruct (linspace_ok 0 (SimulationParameters.cell_radius p / 1000)
              (Z.of_nat nr)) as (mr & Hmr & Lmr); [lia|].
  destruct (linspace_ok 0 (SimulationParameters.cell_height p / 1000)
              (Z.of_nat nz)) as (mz & Hmz & Lmz); [lia|].
  destruct (get_current_defined _ 0 Hne) as [c Hc].
  assert (Hnth : forall (l : list Q) k, (k < length l)%nat ->
                   nth_error l k = Some (nth k l 0)).
  { intros l k Hk. now apply nth_error_nth'. }
  assert (Hval : forall b num l, linspace 0 b num = Ok l -> (1 < num)%Z ->
            forall k, (k < length l)%nat ->
              nth k l 0 == inject_Z (Z.of_nat k) * (b / inject_Z (num - 1))).
  { intros b num l Hl Hnum k Hk.
    rewrite (linspace_values 0 b num l Hl Hnum k _ (Hnth l k Hk)).
    unfold Qdiv. ring. }
  assert (Hlast : forall b num l, linspace 0 b num = Ok l -> (1 < num)%Z ->
            nth (length l - 1) l 0 = b).
  { intros b num l Hl Hnum.
    pose proof (linspace_last 0 b num l Hl Hnum) as H.
    now apply (nth_error_nth _ _ 0) in H. }
  exists {| params := p;
            callback := cb;
            radius := SimulationParameters.cell_radius p / 1000;
            height := SimulationParameters.cell_height p / 1000;
            k := SimulationParameters.thermal_conductivity p;
            cp := SimulationParameters.specific_heat_capacity p;
            rho := SimulationParameters.density p;
            T_init := SimulationParameters.initial_temperature p;
            T_amb := SimulationParameters.ambient_temperature p;
            capacity := SimulationParameters.nominal_capacity p / 1000;
            voltage := SimulationParameters.nominal_voltage p;
            resistance := SimulationParameters.internal_resistance p;
            dt := SimulationParameters.time_step p;
            max_time := SimulationParameters.max_simulation_time p;
            current_profile := SimulationParameters.current_profile p;
            mesh_r := mr;
            mesh_z := mz;
            T := np_scale (np_ones nr nz)
                   (SimulationParameters.initial_temperature p);
            current_time := 0;
            current := Some c;
            running := false;
            paused := false |}.
  exists c.
  split; [unfold __init__; now rewrite Hmr, Hmz, Hc|].
  cbn [radius height capacity mesh_r mesh_z T current current_time running paused].
  unfold mesh_dr, mesh_dz. cbn [mesh_r mesh_z].
  assert (Lr : length mr = nr) by (rewrite Lmr; reflexivity).
  assert (Lz : length mz = nz) by (rewrite Lmz; reflexivity).
  repeat split; try assumption; try reflexivity.
  - rewrite (Hval _ _ _ Hmr) by (rewrite ?Lr; unfold nr; lia). cbn. ring.
  - rewrite <- Lr. apply (Hlast _ _ _ Hmr). unfold nr. lia.
  - rewrite (Hval _ _ _ Hmz) by (rewrite ?Lz; unfold nz; lia). cbn. ring.
  - rewrite <- Lz. apply (Hlast _ _ _ Hmz). unfold nz. lia.
  - rewrite !(Hval _ _ _ Hmr) by (rewrite ?Lr; unfold nr; lia). cbn. field.
  - rewrite !(Hval _ _ _ Hmz) by (rewrite ?Lz; unfold nz; lia). cbn. field.
  - repeat constructor.
  - intros i j Hi Hj. rewrite initial_field_cells by assumption. ring.
Qed.

Lemma constructor_postconditions_witness :
  SimulationParameters.current_profile demo_parameters <> [] /\
  exists s, __init__ demo_parameters true = Ok s /\ current s = Some 2.0.
Proof.
  assert (H : SimulationParameters.current_profile demo_parameters <> [])
    by discriminate.
  split; [exact H|].
  destruct (constructor_postconditions demo_parameters true H)
    as (s & c & Hs & _ & _ & _ & _ & _ & _ & _ & _ & _ & _ & _ & _ & _
          & Hc & Hcur & _).
  exists s. split; [exact Hs|].
  rewrite Hcur. vm_compute in Hc. injection Hc as <-. reflexivity.
Defined.
